(** * The flamegraph analyzer (scripts/ai-flamegraph-analyzer.py)

    A shallow embedding of [FlamegraphAnalyzer]: the parser of the
    [pprof -top] table, the hotspot classifier, the recommendation
    synthesizer and the markdown renderer, followed by the properties of
    the analysis pipeline.

    Conventions of the embedding.
    - A Python [str] is a [string]: the sequence of its characters, one
      [ascii] each.  The builtins [split], [strip], [lower] and [float]
      are modelled on the ASCII repertoire (white space is 9..13, 28..31
      and 32, of which [float] strips 9..13 and 32 only; letters are
      A..Z, digits are 0..9); a character above 127 is an ordinary
      character to all of them.  The non-ASCII literals of the script
      are kept as the bytes the file holds.
    - A Python [float] is a binary64 number, Rocq's primitive [float].
    - A [dict] with a fixed set of literal keys that is built in one
      place is a record; the [issue_groups] dictionary, which is indexed
      and updated, is a [gmap].
    - An exception is a value of [exc]; code that can raise lives in the
      [result] monad.  Code that writes to the report file, or prints,
      is the text it writes: a [result string], and [a >> b] is [a]
      followed by [b].
    - [run_pprof_top] runs a subprocess: its result is the argument
      [top_output] of [analyze].  [datetime.now()] is the argument [now]
      of [generate_report]. *)

From Stdlib Require Import ZArith Ascii String PrimFloat SpecFloat FloatOps.
From Stdlib Require FloatAxioms.
From stdpp Require Import gmap strings list pretty.

Open Scope Z_scope.

(** ** Python's string builtins *)

Module PyStr.

(** [c.isspace()] on an ASCII character. *)
Definition is_space (c : ascii) : bool :=
  let n := Z.of_nat (nat_of_ascii c) in
  ((9 <=? n) && (n <=? 13)) || ((28 <=? n) && (n <=? 32)).

Definition lower_char (c : ascii) : ascii :=
  let n := nat_of_ascii c in
  if (Nat.leb 65 n && Nat.leb n 90)%bool then ascii_of_nat (n + 32) else c.

(** [s.lower()] *)
Fixpoint lower (s : string) : string :=
  match s with
  | EmptyString => EmptyString
  | String c s' => String (lower_char c) (lower s')
  end.

Definition is_empty (s : string) : bool :=
  match s with EmptyString => true | String _ _ => false end.

(** [needle in hay] *)
Fixpoint contains (needle hay : string) : bool :=
  match hay with
  | EmptyString => is_empty needle
  | String _ hay' => String.prefix needle hay || contains needle hay'
  end.

(** [s.split(c)] for a one-character separator: the pieces between the
    separators, empty pieces included, [[""]] for the empty string. *)
Fixpoint split_on (c : ascii) (s : string) : list string :=
  match s with
  | EmptyString => [EmptyString]
  | String a s' =>
      if Ascii.eqb a c then EmptyString :: split_on c s'
      else match split_on c s' with
           | piece :: rest => String a piece :: rest
           | [] => [String a EmptyString]
           end
  end.

(** [s.split()]: the maximal runs of characters that are not white
    space, in order. *)
Fixpoint split (s : string) : list string :=
  match s with
  | EmptyString => []
  | String a s' =>
      if is_space a then split s'
      else match s' with
           | EmptyString => [String a EmptyString]
           | String b _ =>
               if is_space b then String a EmptyString :: split s'
               else match split s' with
                    | tok :: rest => String a tok :: rest
                    | [] => [String a EmptyString]
                    end
           end
  end.

Fixpoint lstrip_with (p : ascii -> bool) (s : string) : string :=
  match s with
  | EmptyString => EmptyString
  | String a s' => if p a then lstrip_with p s' else s
  end.

Fixpoint rstrip_with (p : ascii -> bool) (s : string) : string :=
  match s with
  | EmptyString => EmptyString
  | String a s' =>
      let r := rstrip_with p s' in
      if is_empty r && p a then EmptyString else String a r
  end.

(** [s.strip()] *)
Definition strip (s : string) : string :=
  rstrip_with is_space (lstrip_with is_space s).

(** [s.rstrip(c)] for a one-character set: every trailing [c] goes. *)
Definition rstrip (c : ascii) (s : string) : string :=
  rstrip_with (Ascii.eqb c) s.

(** [sep.join(parts)] *)
Definition join (sep : string) (parts : list string) : string :=
  String.concat sep parts.

(** [s.replace(old, new)] for a non-empty [old]: the occurrences of
    [old] are replaced from the left, without overlap; [skip] counts
    the characters of a matched occurrence still to be passed. *)
Fixpoint replace_from (old new : string) (skip : nat) (s : string) : string :=
  match s with
  | EmptyString => EmptyString
  | String a s' =>
      match skip with
      | S k => replace_from old new k s'
      | O =>
          if String.prefix old s
          then new +:+ replace_from old new (Nat.pred (String.length old)) s'
          else String a (replace_from old new O s')
      end
  end.

Definition replace (old new s : string) : string :=
  replace_from old new O s.

(** [str(n)] and the [{n}] of an f-string, for a non-negative integer. *)
Definition of_nat (n : nat) : string := pretty (N.of_nat n).

End PyStr.

(** ** Python's float: parsing, comparison, addition and formatting *)

Module PyFloat.

Definition digit_val (c : ascii) : option Z :=
  let n := Z.of_nat (nat_of_ascii c) in
  if (48 <=? n) && (n <=? 57) then Some (n - 48) else None.

(** The rest of a [digitpart]: [(["_"] digit)*].  [acc] is the number
    read so far, [cnt] the number of its digits. *)
Fixpoint digits_tail (acc cnt : Z) (s : string) : Z * Z * string :=
  match s with
  | EmptyString => (acc, cnt, s)
  | String c s' =>
      match digit_val c with
      | Some d => digits_tail (10 * acc + d) (cnt + 1) s'
      | None =>
          if Ascii.eqb c "_" then
            match s' with
            | String c' s'' =>
                match digit_val c' with
                | Some d => digits_tail (10 * acc + d) (cnt + 1) s''
                | None => (acc, cnt, s)
                end
            | EmptyString => (acc, cnt, s)
            end
          else (acc, cnt, s)
      end
  end.

(** [digitpart ::= digit (["_"] digit)*] *)
Definition digitpart (acc : Z) (s : string) : option (Z * Z * string) :=
  match s with
  | String c s' =>
      match digit_val c with
      | Some d => Some (digits_tail (10 * acc + d) 1 s')
      | None => None
      end
  | EmptyString => None
  end.

(** [number ::= [digitpart] "." digitpart | digitpart ["."]]: the
    digits as one integer, the number of digits after the point, and
    the rest of the text. *)
Definition number (s : string) : option (Z * Z * string) :=
  match digitpart 0 s with
  | Some (i, _, r1) =>
      match r1 with
      | String "." r2 =>
          match digitpart i r2 with
          | Some (m, nf, r3) => Some (m, nf, r3)
          | None => Some (i, 0, r2)
          end
      | _ => Some (i, 0, r1)
      end
  | None =>
      match s with
      | String "." r2 => digitpart 0 r2
      | _ => None
      end
  end.

(** The white space [float] strips at both ends. *)
Definition is_blank (c : ascii) : bool :=
  let n := Z.of_nat (nat_of_ascii c) in
  ((9 <=? n) && (n <=? 13)) || (n =? 32).

(** [[sign]]: whether a minus sign was read, and the rest. *)
Definition sign (s : string) : bool * string :=
  match s with
  | String "-" s' => (true, s')
  | String "+" s' => (false, s')
  | _ => (false, s)
  end.

(** [exponent ::= ("e" | "E") [sign] digitpart], to the end of the
    text; no exponent is exponent 0. *)
Definition exponent (s : string) : option Z :=
  match s with
  | EmptyString => Some 0
  | String c s' =>
      if Ascii.eqb c "e" || Ascii.eqb c "E" then
        let '(neg, s'') := sign s' in
        match digitpart 0 s'' with
        | Some (x, _, EmptyString) => Some (if neg then - x else x)
        | _ => None
        end
      else None
  end.

(** The binary64 number nearest to [m * 10 ^ e] (ties to even), for a
    positive [m]. *)
Definition of_decimal (neg : bool) (m : positive) (e : Z) : float :=
  if 0 <=? e then
    SF2Prim (binary_normalize prec emax
               ((if neg then Z.neg m else Z.pos m) * 10 ^ e) 0 neg)
  else
    let d := 10 ^ (- e) in
    let k := 55 + Z.log2_up d in
    let n := Z.pos m * 2 ^ k in
    let q := n / d in
    let r := n mod d in
    let loc := if r =? 0 then loc_Exact else loc_Inexact (2 * r ?= d) in
    SF2Prim (binary_round_aux prec emax neg q (- k) loc).

Definition signed (neg : bool) (x : float) : float :=
  if neg then PrimFloat.opp x else x.

(** [float(s)] of a string; [None] is [ValueError]. *)
Definition of_string (s : string) : option float :=
  let stripped := PyStr.rstrip_with is_blank (PyStr.lstrip_with is_blank s) in
  let '(neg, body) := sign stripped in
  let low := PyStr.lower body in
  if String.eqb low "inf" || String.eqb low "infinity"
  then Some (signed neg PrimFloat.infinity)
  else if String.eqb low "nan" then Some PrimFloat.nan
  else
    match number body with
    | Some (m, nf, rest) =>
        match exponent rest with
        | Some x =>
            match m with
            | Z.pos p => Some (of_decimal neg p (x - nf))
            | _ => Some (signed neg PrimFloat.zero)
            end
        | None => None
        end
    | None => None
    end.

(** [x > n] for an integer literal [n], given as the float it denotes. *)
Definition gt (x n : float) : bool := PrimFloat.ltb n x.

(** [sum(xs)]: the additions from the left, starting from 0 (CPython
    from 3.12 on also compensates the rounding errors of the additions;
    on one number the two agree). *)
Definition sum (xs : list float) : float :=
  fold_left PrimFloat.add xs PrimFloat.zero.

(** The integer nearest to ten times [m * 2 ^ e], ties to even. *)
Definition tenths (m : positive) (e : Z) : Z :=
  if 0 <=? e then 10 * Z.pos m * 2 ^ e
  else
    let d := 2 ^ (- e) in
    let n := 10 * Z.pos m in
    let q := n / d in
    match 2 * (n mod d) ?= d with
    | Lt => q
    | Gt => q + 1
    | Eq => if Z.even q then q else q + 1
    end.

(** [f"{x:.1f}"] *)
Definition format_1f (x : float) : string :=
  match Prim2SF x with
  | S754_nan => "nan"
  | S754_infinity s => if s then "-inf" else "inf"
  | S754_zero s => if s then "-0.0" else "0.0"
  | S754_finite s m e =>
      let t := tenths m e in
      (if s then "-" else "") +:+ pretty (t / 10) +:+ "." +:+ pretty (t mod 10)
  end.

End PyFloat.

(** ** Exceptions *)

Inductive exc : Type := ValueError | IndexError | KeyError.

Inductive result (A : Type) : Type :=
  | Ok (a : A)
  | Raise (e : exc).

Arguments Ok {A} a.
Arguments Raise {A} e.

#[export] Instance result_ret : MRet result := fun A a => Ok a.

#[export] Instance result_bind : MBind result := fun A B f m =>
  match m with
  | Ok a => f a
  | Raise e => Raise e
  end.

(** A [for] loop whose body can raise, over the loop's variables [S]. *)
Fixpoint for_each {S A : Type} (body : S -> A -> result S) (xs : list A) (st : S)
  : result S :=
  match xs with
  | [] => Ok st
  | x :: xs' => st' ← body st x; for_each body xs' st'
  end.

(** [xs[i]] *)
Definition index {A : Type} (xs : list A) (i : nat) : result A :=
  match xs !! i with
  | Some x => Ok x
  | None => Raise IndexError
  end.

(** [float(s)] *)
Definition float_of (s : string) : result float :=
  match PyFloat.of_string s with
  | Some x => Ok x
  | None => Raise ValueError
  end.

Definition nl : string := String "010" EmptyString.

(** ** The data model *)

(** One row of the table: the dictionary built by [parse_top_output]. *)
Module FunctionStat.
Record t : Type := Build {
  flat_time : string;
  flat_pct : float;
  cum_time : string;
  cum_pct : float;
  name : string
}.
End FunctionStat.

(** One finding: the dictionary built by [identify_hotspots]. *)
Module Hotspot.
Record t : Type := Build {
  function : string;
  flat_pct : float;
  cum_pct : float;
  priority : string;
  issues : list string
}.
End Hotspot.

(** One recommendation: the dictionary built by
    [generate_recommendations]. *)
Module Recommendation.
Record t : Type := Build {
  category : string;
  priority : string;
  issue : string;
  suggestions : list string
}.
End Recommendation.

(** ** parse_top_output *)

(** The loop's variables. *)
Record parse_state : Type := ParseState {
  data_started : bool;
  functions : list FunctionStat.t
}.

(** ['flat' in line and 'cum' in line] *)
Definition is_header (line : string) : bool :=
  PyStr.contains "flat" line && PyStr.contains "cum" line.

(** The body of the [try]. *)
Definition parse_row (parts : list string) : result FunctionStat.t :=
  flat_time ← index parts 0;
  part1 ← index parts 1;
  let flat_pct := PyStr.rstrip "%" part1 in
  cum_time ← index parts 3;
  part4 ← index parts 4;
  let cum_pct := PyStr.rstrip "%" part4 in
  let func_name := PyStr.join " " (drop 5 parts) in
  flat ← float_of flat_pct;
  cum ← float_of cum_pct;
  mret (FunctionStat.Build flat_time flat cum_time cum func_name).

(** The body of the loop over the lines. *)
Definition parse_line (st : parse_state) (line : string) : result parse_state :=
  if is_header line then
    Ok (ParseState true (functions st))
  else if negb (data_started st) || PyStr.is_empty (PyStr.strip line) then
    Ok st
  else
    let parts := PyStr.split line in
    if (6 <=? length parts)%nat then
      match parse_row parts with
      | Ok row => Ok (ParseState (data_started st) (functions st ++ [row]))
      | Raise ValueError | Raise IndexError => Ok st
      | Raise e => Raise e
      end
    else Ok st.

Definition parse_lines (lines : list string) : result parse_state :=
  for_each parse_line lines (ParseState false []).

Definition parse_top_output (top_output : string) : result (list FunctionStat.t) :=
  st ← parse_lines (PyStr.split_on "010" top_output);
  mret (functions st).

(** ** identify_hotspots *)

(** The variables [priority] and [issues] of one iteration. *)
Record verdict : Type := Verdict {
  v_priority : string;
  v_issues : list string
}.

(** [any(pattern in name.lower() for pattern in patterns)] *)
Definition any_in (patterns : list string) (name : string) : bool :=
  existsb (fun pattern => PyStr.contains pattern (PyStr.lower name)) patterns.

(** The one step all but the first two rules share: a name test adds an
    issue, and a threshold on [flat_pct], when there is one, assigns the
    priority. *)
Definition pattern_rule (patterns : list string) (text : string)
    (assign : option (float * string)) (func : FunctionStat.t) (v : verdict)
  : verdict :=
  if any_in patterns (FunctionStat.name func) then
    let issues := v_issues v ++ [text] in
    match assign with
    | Some (threshold, p) =>
        if PyFloat.gt (FunctionStat.flat_pct func) threshold
        then Verdict p issues
        else Verdict (v_priority v) issues
    | None => Verdict (v_priority v) issues
    end
  else v.

(** High flat percentage = direct CPU consumption *)
Definition rule_flat (func : FunctionStat.t) (v : verdict) : verdict :=
  let text :=
    "Consumes " +:+ PyFloat.format_1f (FunctionStat.flat_pct func)
      +:+ "% CPU directly" in
  if PyFloat.gt (FunctionStat.flat_pct func) 10 then
    Verdict "HIGH" (v_issues v ++ [text])
  else if PyFloat.gt (FunctionStat.flat_pct func) 5 then
    Verdict "MEDIUM" (v_issues v ++ [text])
  else v.

(** High cumulative percentage = hot call path *)
Definition rule_cum (func : FunctionStat.t) (v : verdict) : verdict :=
  if PyFloat.gt (FunctionStat.cum_pct func) 20 then
    Verdict
      (if negb (String.eqb (v_priority v) "HIGH") then "MEDIUM" else v_priority v)
      (v_issues v ++
         ["Call tree consumes " +:+ PyFloat.format_1f (FunctionStat.cum_pct func)
            +:+ "% total CPU"])
  else v.

Definition rule_gc : FunctionStat.t -> verdict -> verdict :=
  pattern_rule ["gc"; "garbage"; "sweep"] "Garbage collection overhead"
    (Some (5%float, "HIGH")).

Definition rule_lock : FunctionStat.t -> verdict -> verdict :=
  pattern_rule ["lock"; "mutex"; "sync"] "Synchronization/locking detected"
    (Some (3%float, "HIGH")).

Definition rule_json : FunctionStat.t -> verdict -> verdict :=
  pattern_rule ["json"; "marshal"; "unmarshal"] "JSON serialization overhead"
    (Some (5%float, "MEDIUM")).

Definition rule_sql : FunctionStat.t -> verdict -> verdict :=
  pattern_rule ["sql"; "query"; "exec"] "Database query overhead"
    (Some (5%float, "HIGH")).

Definition rule_reflect : FunctionStat.t -> verdict -> verdict :=
  pattern_rule ["reflect"] "Reflection usage (slow)" (Some (3%float, "MEDIUM")).

Definition rule_regex : FunctionStat.t -> verdict -> verdict :=
  pattern_rule ["regex"; "regexp"] "Regular expression overhead" None.

Definition rule_syscall : FunctionStat.t -> verdict -> verdict :=
  pattern_rule ["syscall"] "System call overhead" None.

(** The rules in the order the loop body runs them. *)
Definition rules : list (FunctionStat.t -> verdict -> verdict) :=
  [rule_flat; rule_cum; rule_gc; rule_lock; rule_json; rule_sql;
   rule_reflect; rule_regex; rule_syscall].

Definition run_rules (rs : list (FunctionStat.t -> verdict -> verdict))
    (func : FunctionStat.t) (v : verdict) : verdict :=
  fold_left (fun v rule => rule func v) rs v.

(** [priority] and [issues] at the end of one iteration. *)
Definition classify (func : FunctionStat.t) : verdict :=
  run_rules rules func (Verdict "LOW" []).

(** The body of the loop over the functions. *)
Definition identify_step (hotspots : list Hotspot.t) (func : FunctionStat.t)
  : list Hotspot.t :=
  let v := classify func in
  match v_issues v with
  | [] => hotspots
  | _ :: _ =>
      hotspots ++
        [Hotspot.Build (FunctionStat.name func) (FunctionStat.flat_pct func)
           (FunctionStat.cum_pct func) (v_priority v) (v_issues v)]
  end.

Definition identify_hotspots (functions : list FunctionStat.t) : list Hotspot.t :=
  fold_left identify_step functions [].

(** ** generate_recommendations *)

(** [issue_groups] as it is initialised. *)
Definition issue_groups_init : gmap string (list Hotspot.t) :=
  list_to_map
    [("gc", []); ("lock", []); ("json", []); ("sql", []); ("reflect", []);
     ("regex", []); ("syscall", [])].

(** [issue_groups[key]] *)
Definition group (groups : gmap string (list Hotspot.t)) (key : string)
  : result (list Hotspot.t) :=
  match groups !! key with
  | Some hotspots => Ok hotspots
  | None => Raise KeyError
  end.

(** [issue_groups[key].append(hotspot)] *)
Definition group_append (key : string) (hotspot : Hotspot.t)
    (groups : gmap string (list Hotspot.t))
  : result (gmap string (list Hotspot.t)) :=
  hotspots ← group groups key;
  mret (<[key := hotspots ++ [hotspot]]> groups).

(** The [if]/[elif] chain on one issue text: the key of the group the
    hotspot is appended to, if any. *)
Definition group_key (issue : string) : option string :=
  let low := PyStr.lower issue in
  if PyStr.contains "garbage collection" low then Some "gc"
  else if PyStr.contains "synchronization" low || PyStr.contains "locking" low
  then Some "lock"
  else if PyStr.contains "json" low then Some "json"
  else if PyStr.contains "database" low then Some "sql"
  else if PyStr.contains "reflection" low then Some "reflect"
  else if PyStr.contains "regular expression" low then Some "regex"
  else if PyStr.contains "system call" low then Some "syscall"
  else None.

(** The body of the inner loop, over the issues of one hotspot. *)
Definition group_issue (hotspot : Hotspot.t)
    (groups : gmap string (list Hotspot.t)) (issue : string)
  : result (gmap string (list Hotspot.t)) :=
  match group_key issue with
  | Some key => group_append key hotspot groups
  | None => Ok groups
  end.

(** The body of the outer loop, over the hotspots. *)
Definition group_hotspot (groups : gmap string (list Hotspot.t))
    (hotspot : Hotspot.t) : result (gmap string (list Hotspot.t)) :=
  for_each (group_issue hotspot) (Hotspot.issues hotspot) groups.

Definition group_by_issue (hotspots : list Hotspot.t)
  : result (gmap string (list Hotspot.t)) :=
  for_each group_hotspot hotspots issue_groups_init.

(** What the five [if issue_groups[key]:] blocks differ in. *)
Record advice : Type := Advice {
  a_key : string;
  a_category : string;
  a_priority : float -> string;
  a_label : string;
  a_suggestions : list string
}.

Definition advice_gc : advice :=
  Advice "gc" "Memory Management"
    (fun total_gc => if PyFloat.gt total_gc 10 then "HIGH" else "MEDIUM")
    "GC overhead: "
    ["Reduce allocations using object pooling (sync.Pool)";
     "Pre-allocate slices and maps with known capacity";
     "Use value types instead of pointers where possible";
     "Consider increasing GOGC value if memory permits"].

Definition advice_lock : advice :=
  Advice "lock" "Concurrency"
    (fun total_lock => if PyFloat.gt total_lock 5 then "HIGH" else "MEDIUM")
    "Lock contention: "
    ["Reduce lock granularity (use more fine-grained locks)";
     "Replace mutexes with channels where appropriate";
     "Use sync.RWMutex for read-heavy workloads";
     "Consider lock-free data structures";
     "Run blocking profile: make profile-block"].

Definition advice_json : advice :=
  Advice "json" "Serialization"
    (fun total_json => if PyFloat.gt total_json 5 then "MEDIUM" else "LOW")
    "JSON overhead: "
    ["Use json.RawMessage for delayed parsing";
     "Consider faster alternatives (easyjson, jsoniter)";
     "Batch JSON operations";
     "Use streaming for large payloads"].

Definition advice_sql : advice :=
  Advice "sql" "Database"
    (fun total_sql => if PyFloat.gt total_sql 10 then "HIGH" else "MEDIUM")
    "Database overhead: "
    ["Add indexes for slow queries";
     "Use prepared statements";
     "Implement caching layer (Redis)";
     "Batch database operations";
     "Consider connection pooling optimization"].

Definition advice_reflect : advice :=
  Advice "reflect" "Code Generation"
    (fun _ => "MEDIUM")
    "Reflection overhead: "
    ["Replace reflection with code generation";
     "Cache reflection results";
     "Use concrete types instead of interface{}";
     "Consider compile-time alternatives"].

(** The blocks in the order they run. *)
Definition advices : list advice :=
  [advice_gc; advice_lock; advice_json; advice_sql; advice_reflect].

(** [sum(h['flat_pct'] for h in hotspots)] *)
Definition total_flat (hotspots : list Hotspot.t) : float :=
  PyFloat.sum (map Hotspot.flat_pct hotspots).

(** One [if issue_groups[key]:] block. *)
Definition recommend (groups : gmap string (list Hotspot.t))
    (recommendations : list Recommendation.t) (a : advice)
  : result (list Recommendation.t) :=
  hotspots ← group groups (a_key a);
  match hotspots with
  | [] => Ok recommendations
  | _ :: _ =>
      let total := total_flat hotspots in
      Ok (recommendations ++
            [Recommendation.Build (a_category a) (a_priority a total)
               (a_label a +:+ PyFloat.format_1f total +:+ "% CPU")
               (a_suggestions a)])
  end.

Definition generate_recommendations (hotspots : list Hotspot.t)
  : result (list Recommendation.t) :=
  groups ← group_by_issue hotspots;
  for_each (recommend groups) advices [].

(** ** generate_report *)

(** The analyzer object: the attributes the report reads. *)
Record Analyzer : Type := Build_Analyzer {
  profile_path : string;
  profile_name : string;
  hotspots : list Hotspot.t;
  recommendations : list Recommendation.t
}.

(** What [datetime.now()] returned. *)
Record datetime : Type := Datetime {
  year : nat;
  month : nat;
  day : nat;
  hour : nat;
  minute : nat;
  second : nat
}.

(** A decimal number padded with zeros to [width] digits. *)
Definition zero_padded (width : nat) (n : nat) : string :=
  let digits := PyStr.of_nat n in
  String.concat "" (replicate (width - String.length digits) "0") +:+ digits.

(** [now.strftime('%Y-%m-%d %H:%M:%S')] *)
Definition strftime (now : datetime) : string :=
  zero_padded 4 (year now) +:+ "-" +:+ zero_padded 2 (month now) +:+ "-"
    +:+ zero_padded 2 (day now) +:+ " " +:+ zero_padded 2 (hour now) +:+ ":"
    +:+ zero_padded 2 (minute now) +:+ ":" +:+ zero_padded 2 (second now).

(** The text a piece of code writes to the report, unless it raises. *)
Definition write (text : string) : result string := Ok text.

Definition and_then (first second : result string) : result string :=
  text ← first; text' ← second; mret (text +:+ text').

Infix ">>" := and_then (at level 65, right associativity).

(** [for i, x in enumerate(xs, start): body], as the text it writes. *)
Fixpoint write_each {A : Type} (body : nat -> A -> result string) (start : nat)
    (xs : list A) : result string :=
  match xs with
  | [] => write ""
  | x :: xs' => body start x >> write_each body (S start) xs'
  end.

(** The dictionary literal of the priority marks, and its lookup. *)
Definition priority_emojis : gmap string string :=
  list_to_map [("HIGH", "ðŸ”´"); ("MEDIUM", "ðŸŸ¡"); ("LOW", "ðŸŸ¢")].

Definition priority_emoji (priority : string) : result string :=
  match priority_emojis !! priority with
  | Some emoji => Ok emoji
  | None => Raise KeyError
  end.

Definition write_title (self : Analyzer) (now : datetime) : result string :=
  write ("# Flamegraph Analysis Report" +:+ nl +:+ nl) >>
  write ("**Profile:** `" +:+ profile_name self +:+ "`" +:+ nl) >>
  write ("**Generated:** " +:+ strftime now +:+ nl) >>
  write ("**Profile Path:** `" +:+ profile_path self +:+ "`" +:+ nl +:+ nl) >>
  write ("---" +:+ nl +:+ nl).

(** Executive Summary *)
Definition write_summary (hotspots : list Hotspot.t) : result string :=
  write ("## ðŸŽ¯ Executive Summary" +:+ nl +:+ nl) >>
  match hotspots with
  | top_hotspot :: _ =>
      write ("**Top Hotspot:** `" +:+ Hotspot.function top_hotspot +:+ "`" +:+ nl) >>
      write ("- **CPU Usage:** "
               +:+ PyFloat.format_1f (Hotspot.flat_pct top_hotspot)
               +:+ "% (direct)" +:+ nl) >>
      write ("- **Priority:** " +:+ Hotspot.priority top_hotspot +:+ nl +:+ nl) >>
      let high_priority :=
        List.filter (fun h => String.eqb (Hotspot.priority h) "HIGH") hotspots in
      write ("**Critical Issues:** " +:+ PyStr.of_nat (length high_priority)
               +:+ " high-priority hotspots found" +:+ nl +:+ nl)
  | [] =>
      write ("No significant hotspots detected. Performance appears optimal."
               +:+ nl +:+ nl)
  end.

(** One entry of the hotspot list: the body of the loop. *)
Definition write_hotspot (i : nat) (hotspot : Hotspot.t) : result string :=
  emoji ← priority_emoji (Hotspot.priority hotspot);
  write ("### " +:+ PyStr.of_nat i +:+ ". " +:+ emoji +:+ " "
           +:+ Hotspot.priority hotspot +:+ " Priority" +:+ nl +:+ nl) >>
  write ("**Function:** `" +:+ Hotspot.function hotspot +:+ "`" +:+ nl +:+ nl) >>
  write ("**Metrics:**" +:+ nl) >>
  write ("- Direct CPU: " +:+ PyFloat.format_1f (Hotspot.flat_pct hotspot)
           +:+ "%" +:+ nl) >>
  write ("- Total CPU (with callees): "
           +:+ PyFloat.format_1f (Hotspot.cum_pct hotspot) +:+ "%" +:+ nl +:+ nl) >>
  write ("**Issues Identified:**" +:+ nl) >>
  write_each (fun _ issue => write ("- " +:+ issue +:+ nl)) 0 (Hotspot.issues hotspot) >>
  write nl.

(** Top Hotspots *)
Definition write_hotspots (hotspots : list Hotspot.t) : result string :=
  write ("## ðŸ”¥ Top Performance Hotspots" +:+ nl +:+ nl) >>
  match hotspots with
  | _ :: _ => write_each write_hotspot 1 (take 10 hotspots)
  | [] => write ("No hotspots detected." +:+ nl +:+ nl)
  end.

(** One recommendation: the body of the loop. *)
Definition write_recommendation (i : nat) (rec : Recommendation.t) : result string :=
  emoji ← priority_emoji (Recommendation.priority rec);
  write ("### " +:+ PyStr.of_nat i +:+ ". " +:+ emoji +:+ " "
           +:+ Recommendation.category rec +:+ nl +:+ nl) >>
  write ("**Priority:** " +:+ Recommendation.priority rec +:+ nl) >>
  write ("**Issue:** " +:+ Recommendation.issue rec +:+ nl +:+ nl) >>
  write ("**Suggested Actions:**" +:+ nl) >>
  write_each (fun _ suggestion => write ("- " +:+ suggestion +:+ nl)) 0
    (Recommendation.suggestions rec) >>
  write nl.

(** Recommendations *)
Definition write_recommendations (recommendations : list Recommendation.t)
  : result string :=
  write ("## ðŸ’¡ Optimization Recommendations" +:+ nl +:+ nl) >>
  match recommendations with
  | _ :: _ => write_each write_recommendation 1 recommendations
  | [] => write ("No specific recommendations. Profile looks healthy!" +:+ nl +:+ nl)
  end.

(** Next Steps *)
Definition write_next_steps (self : Analyzer) : result string :=
  write ("## ðŸš€ Next Steps" +:+ nl +:+ nl) >>
  write ("1. **Review the flamegraph visually:**" +:+ nl) >>
  write ("   ```bash" +:+ nl) >>
  write ("   firefox " +:+ PyStr.replace ".pb.gz" ".svg" (profile_path self) +:+ nl) >>
  write ("   ```" +:+ nl +:+ nl) >>
  write ("2. **Interactive analysis:**" +:+ nl) >>
  write ("   ```bash" +:+ nl) >>
  write ("   go tool pprof " +:+ profile_path self +:+ nl) >>
  write ("   # Commands: top, list <function>, web" +:+ nl) >>
  write ("   ```" +:+ nl +:+ nl) >>
  write ("3. **Generate additional profiles:**" +:+ nl) >>
  write ("   ```bash" +:+ nl) >>
  write ("   make profile-heap      # Memory allocation profile" +:+ nl) >>
  write ("   make profile-goroutine # Goroutine usage" +:+ nl) >>
  write ("   make profile-block     # Blocking operations" +:+ nl) >>
  write ("   make profile-mutex     # Lock contention" +:+ nl) >>
  write ("   ```" +:+ nl +:+ nl).

(** Footer *)
Definition write_footer : result string :=
  write ("---" +:+ nl +:+ nl) >>
  write ("*Generated by AI Flamegraph Analyzer*" +:+ nl).

(** The text [generate_report] writes to the report file, given what
    the clock reads. *)
Definition generate_report (self : Analyzer) (now : datetime) : result string :=
  write_title self now >>
  write_summary (hotspots self) >>
  write_hotspots (hotspots self) >>
  write_recommendations (recommendations self) >>
  write_next_steps self >>
  write_footer.

(** ** analyze *)

(** One entry of the quick summary: the body of the loop. *)
Definition print_hotspot (i : nat) (hotspot : Hotspot.t) : result string :=
  emoji ← priority_emoji (Hotspot.priority hotspot);
  let func_short :=
    if (60 <? String.length (Hotspot.function hotspot))%nat
    then String.substring 0 60 (Hotspot.function hotspot) +:+ "..."
    else Hotspot.function hotspot in
  write ("  " +:+ PyStr.of_nat i +:+ ". " +:+ emoji +:+ " " +:+ func_short +:+ nl) >>
  first_issue ← index (Hotspot.issues hotspot) 0;
  write ("     " +:+ PyFloat.format_1f (Hotspot.flat_pct hotspot) +:+ "% CPU - "
           +:+ first_issue +:+ nl).

(** Show quick summary: the text printed for the top 3 hotspots. *)
Definition print_summary (hotspots : list Hotspot.t) : result string :=
  match hotspots with
  | _ :: _ =>
      write ("ðŸ”¥ Top 3 Hotspots:" +:+ nl) >>
      write_each print_hotspot 1 (take 3 hotspots) >>
      write nl
  | [] => write ""
  end.

(** [analyze], given the text [run_pprof_top] returned: [None] when it
    gives up before parsing, else the analyzer with its findings, the
    text of the report and the text of the quick summary.  The progress
    lines it prints in between are left out. *)
Definition analyze (self : Analyzer) (now : datetime) (top_output : string)
  : result (option (Analyzer * string * string)) :=
  if PyStr.is_empty top_output then Ok None
  else
    functions ← parse_top_output top_output;
    let hotspots := identify_hotspots functions in
    recommendations ← generate_recommendations hotspots;
    let self' :=
      Build_Analyzer (profile_path self) (profile_name self) hotspots
        recommendations in
    report ← generate_report self' now;
    summary ← print_summary hotspots;
    mret (Some (self', report, summary)).

(** * The rest of the script *)

(** ** pathlib, as [__init__] and [generate_report] use it

    [Path] is [PurePosixPath]: the separator is [/], and a path is its
    root and its components, the empty ones and [.] left out. *)

Module PyPath.

(** The root: [/] for a path that starts with slashes, [//] when they
    are exactly two. *)
Definition root (path : string) : string :=
  let rest := PyStr.lstrip_with (Ascii.eqb "/") path in
  match (String.length path - String.length rest)%nat with
  | O => ""
  | 2%nat => "//"
  | _ => "/"
  end.

(** The components after the root. *)
Definition parts (path : string) : list string :=
  List.filter (fun x => negb (PyStr.is_empty x) && negb (String.eqb x "."))
    (PyStr.split_on "/" path).

(** [Path(path).name]: the last component, or the empty string. *)
Definition name (path : string) : string := List.last (parts path) "".

(** [s.rfind('.')]: the index of the last dot, if there is one. *)
Fixpoint rfind_dot (s : string) : option nat :=
  match s with
  | EmptyString => None
  | String c s' =>
      match rfind_dot s' with
      | Some i => Some (S i)
      | None => if Ascii.eqb c "." then Some O else None
      end
  end.

(** The stem of a name: the name without its last suffix; a dot that
    starts or ends the name begins no suffix. *)
Definition stem_of (name : string) : string :=
  match rfind_dot name with
  | Some i =>
      if (0 <? i)%nat && (i <? String.length name - 1)%nat
      then String.substring 0 i name
      else name
  | None => name
  end.

(** [Path(path).stem] *)
Definition stem (path : string) : string := stem_of (name path).

(** [str(Path(path).parent / child)] for a [child] that is one
    component: the path with its last component replaced by [child]. *)
Definition sibling (path child : string) : string :=
  root path +:+ PyStr.join "/" (removelast (parts path) ++ [child]).

End PyPath.

(** ** __init__ *)

Definition init (profile_path : string) : Analyzer :=
  Build_Analyzer profile_path (PyPath.stem profile_path) [] [].

(** [output_path] of [generate_report], as [open] and [print] take it. *)
Definition output_path (self : Analyzer) : string :=
  PyPath.sibling (profile_path self) (profile_name self +:+ "_analysis.md").

(** ** run_pprof_top and main *)

(** What the script meets of its surroundings: [os.path.exists], the
    standard output of [go tool pprof -top -nodecount=50] on a profile
    ([None] when [subprocess.run] raises, by a timeout or a missing
    tool), whether a file can be opened for writing and written, and the
    clock. *)
Record environment : Type := Environment {
  path_exists : string -> bool;
  pprof_top : string -> option string;
  can_write : string -> bool;
  clock : datetime
}.

(** [run_pprof_top]: the standard output, or the empty string when
    running the tool raised. *)
Definition run_pprof_top (env : environment) (self : Analyzer) : string :=
  match pprof_top env (profile_path self) with
  | Some stdout => stdout
  | None => ""
  end.

(** How [main] ends: the exit status, and the report file it wrote, as
    its path and its text. *)
Record outcome : Type := Outcome {
  exit_status : nat;
  report_file : option (string * string)
}.

(** [main], given [sys.argv].  Nothing catches the [OSError] of an
    [open] that fails in [generate_report]: the interpreter then ends
    with status 1, and no report. *)
Definition main (env : environment) (argv : list string) : result outcome :=
  if (length argv <? 2)%nat then Ok (Outcome 1 None)
  else
    profile_path ← index argv 1;
    if negb (path_exists env profile_path) then Ok (Outcome 1 None)
    else
      let analyzer := init profile_path in
      analysed ← analyze analyzer (clock env) (run_pprof_top env analyzer);
      match analysed with
      | Some (self, report, _) =>
          if can_write env (output_path self)
          then Ok (Outcome 0 (Some (output_path self, report)))
          else Ok (Outcome 1 None)
      | None => Ok (Outcome 1 None)
      end.

(** * Specification

    The functions the statements below are written with: what each
    stage computes, as a function of its input, and the notions the
    claims use. *)

(** The text whose lines are [lines]. *)
Definition unlines (lines : list string) : string := PyStr.join nl lines.

(** ['\n' not in line] *)
Definition one_line (line : string) : Prop := PyStr.contains nl line = false.

(** The lines after the first header line. *)
Fixpoint after_header (lines : list string) : list string :=
  match lines with
  | [] => []
  | line :: rest => if is_header line then rest else after_header rest
  end.

(** The record a line yields once the header has been seen, if any. *)
Definition row_of (line : string) : option FunctionStat.t :=
  if is_header line then None
  else if PyStr.is_empty (PyStr.strip line) then None
  else
    let parts := PyStr.split line in
    if (6 <=? length parts)%nat then
      match parse_row parts with
      | Ok row => Some row
      | Raise _ => None
      end
    else None.

(** Whether a percentage token, its trailing [%] signs removed, is the
    text of a float. *)
Definition parses (token : option string) : bool :=
  match token with
  | Some tok =>
      match PyFloat.of_string (PyStr.rstrip "%" tok) with
      | Some _ => true
      | None => false
      end
  | None => false
  end.

(** A line of at least 6 tokens whose tokens 1 and 4 parse. *)
Definition well_formed (line : string) : bool :=
  let parts := PyStr.split line in
  (6 <=? length parts)%nat && parses (parts !! 1%nat) && parses (parts !! 4%nat).

(** The count of the specification: the well-formed lines after the
    first header line. *)
Definition claimed_record_count (top_output : string) : nat :=
  length (List.filter well_formed (after_header (PyStr.split_on "010" top_output))).

(** What the parser counts: the well-formed lines after the first header
    line that are not header lines themselves. *)
Definition record_count (top_output : string) : nat :=
  length
    (List.filter (fun line => negb (is_header line) && well_formed line)
       (after_header (PyStr.split_on "010" top_output))).

(** The finding of one record, if it has an issue. *)
Definition hotspot_of (func : FunctionStat.t) : option Hotspot.t :=
  let v := classify func in
  match v_issues v with
  | [] => None
  | _ :: _ =>
      Some (Hotspot.Build (FunctionStat.name func) (FunctionStat.flat_pct func)
              (FunctionStat.cum_pct func) (v_priority v) (v_issues v))
  end.

(** The three priorities, and their order LOW < MEDIUM < HIGH. *)
Definition valid_priority (priority : string) : Prop :=
  priority = "LOW" \/ priority = "MEDIUM" \/ priority = "HIGH".

Definition rank (priority : string) : nat :=
  if String.eqb priority "HIGH" then 2
  else if String.eqb priority "MEDIUM" then 1
  else 0.

(** The priority of a record before the first rule and after each rule. *)
Definition priorities_along (func : FunctionStat.t) : list string :=
  map (fun n => v_priority (run_rules (take n rules) func (Verdict "LOW" [])))
    (seq 0 (S (length rules))).

(** Two rows of a table: a serialization function and a reflection
    function, each above 10% of direct CPU. *)
Definition json_row : FunctionStat.t :=
  FunctionStat.Build "150ms" 15 "150ms" 15 "encoding/json.Marshal".

Definition reflect_row : FunctionStat.t :=
  FunctionStat.Build "120ms" 12 "120ms" 12 "reflect.Value.Call".

(** The keys of [issue_groups]. *)
Definition group_keys : list string :=
  ["gc"; "lock"; "json"; "sql"; "reflect"; "regex"; "syscall"].

(** The findings that contribute to the group [key]: each finding, once
    for each of its issues that the chain sends to [key], in order. *)
Definition mentions (key : string) (hotspot : Hotspot.t) : list Hotspot.t :=
  flat_map
    (fun issue => if decide (group_key issue = Some key) then [hotspot] else [])
    (Hotspot.issues hotspot).

Definition contributing (key : string) (hotspots : list Hotspot.t)
  : list Hotspot.t :=
  flat_map (mentions key) hotspots.

(** The category and priority of the entry of one group: none when no
    finding contributes, else the priority that [priority] derives from
    the sum of their [flat_pct]. *)
Definition entry_of (hotspots : list Hotspot.t) (key category : string)
    (priority : float -> string) : list (string * string) :=
  match contributing key hotspots with
  | [] => []
  | _ :: _ => [(category, priority (total_flat (contributing key hotspots)))]
  end.

(** The entries in the fixed order of the categories, with the
    thresholds of each; [data_category] is the name of the fourth. *)
Definition category_entries (data_category : string) (hotspots : list Hotspot.t)
  : list (string * string) :=
  entry_of hotspots "gc" "Memory Management"
    (fun total => if PyFloat.gt total 10 then "HIGH" else "MEDIUM") ++
  entry_of hotspots "lock" "Concurrency"
    (fun total => if PyFloat.gt total 5 then "HIGH" else "MEDIUM") ++
  entry_of hotspots "json" "Serialization"
    (fun total => if PyFloat.gt total 5 then "MEDIUM" else "LOW") ++
  entry_of hotspots "sql" data_category
    (fun total => if PyFloat.gt total 10 then "HIGH" else "MEDIUM") ++
  entry_of hotspots "reflect" "Code Generation" (fun _ => "MEDIUM").

Definition category_and_priority (rec : Recommendation.t) : string * string :=
  (Recommendation.category rec, Recommendation.priority rec).

(** [enumerate(xs, start)] *)
Definition enumerate {A : Type} (start : nat) (xs : list A) : list (nat * A) :=
  zip (seq start (length xs)) xs.

(** A table of thirteen rows, eleven of which have an issue. *)
Definition sample_table : string :=
  unlines
    ["      flat  flat%   sum%        cum   cum%";
     "150ms 15.0% 15.0% 250ms 25.0% runtime.gcBgMarkWorker";
     "120ms 12.0% 27.0% 120ms 12.0% reflect.Value.Call";
     "90ms 9.0% 36.0% 90ms 9.0% sync.(*Mutex).Lock";
     "80ms 8.0% 44.0% 80ms 8.0% encoding/json.Marshal";
     "70ms 7.0% 51.0% 70ms 7.0% database/sql.(*DB).Query";
     "40ms 4.0% 55.0% 40ms 4.0% main.handleOrder";
     "30ms 3.0% 58.0% 30ms 3.0% regexp.(*Regexp).doExecute";
     "30ms 3.0% 61.0% 30ms 3.0% syscall.Syscall";
     "20ms 2.0% 63.0% 220ms 22.0% net/http.(*conn).serve";
     "20ms 2.0% 65.0% 20ms 2.0% runtime.mallocgc";
     "10ms 1.0% 66.0% 10ms 1.0% main.matchOrders";
     "10ms 1.0% 67.0% 10ms 1.0% runtime.sweepone";
     "10ms 1.0% 68.0% 10ms 1.0% runtime.futex.lock"].

Definition sample_rows : list FunctionStat.t :=
  Eval vm_compute in
    match parse_top_output sample_table with
    | Ok rows => rows
    | Raise _ => []
    end.

Definition sample_analyzer : Analyzer :=
  Eval vm_compute in
    Build_Analyzer "cpu.pb.gz" "cpu.pb" (identify_hotspots sample_rows)
      match generate_recommendations (identify_hotspots sample_rows) with
      | Ok recs => recs
      | Raise _ => []
      end.

Definition sample_now : datetime := Datetime 2024 1 2 3 4 5.

(** ** The classifier in closed form *)

(** The keyword lists of the seven rules on the name. *)
Definition gc_patterns : list string := ["gc"; "garbage"; "sweep"].
Definition lock_patterns : list string := ["lock"; "mutex"; "sync"].
Definition json_patterns : list string := ["json"; "marshal"; "unmarshal"].
Definition sql_patterns : list string := ["sql"; "query"; "exec"].
Definition reflect_patterns : list string := ["reflect"].
Definition regex_patterns : list string := ["regex"; "regexp"].
Definition syscall_patterns : list string := ["syscall"].

(** The priority the rules leave: that of the last rule that assigns
    one. *)
Definition final_priority (func : FunctionStat.t) : string :=
  let flat := FunctionStat.flat_pct func in
  let name := FunctionStat.name func in
  if any_in reflect_patterns name && PyFloat.gt flat 3 then "MEDIUM"
  else if any_in sql_patterns name && PyFloat.gt flat 5 then "HIGH"
  else if any_in json_patterns name && PyFloat.gt flat 5 then "MEDIUM"
  else if any_in lock_patterns name && PyFloat.gt flat 3 then "HIGH"
  else if any_in gc_patterns name && PyFloat.gt flat 5 then "HIGH"
  else if PyFloat.gt (FunctionStat.cum_pct func) 20 then
    if PyFloat.gt flat 10 then "HIGH" else "MEDIUM"
  else if PyFloat.gt flat 10 then "HIGH"
  else if PyFloat.gt flat 5 then "MEDIUM"
  else "LOW".

(** The issue a test adds when it holds. *)
Definition issue_if (test : bool) (text : string) : list string :=
  if test then [text] else [].

(** The issues the rules leave: one for each rule that fires, in the
    order of the rules. *)
Definition final_issues (func : FunctionStat.t) : list string :=
  let flat := FunctionStat.flat_pct func in
  let cum := FunctionStat.cum_pct func in
  let name := FunctionStat.name func in
  issue_if (PyFloat.gt flat 10 || PyFloat.gt flat 5)
    ("Consumes " +:+ PyFloat.format_1f flat +:+ "% CPU directly") ++
  issue_if (PyFloat.gt cum 20)
    ("Call tree consumes " +:+ PyFloat.format_1f cum +:+ "% total CPU") ++
  issue_if (any_in gc_patterns name) "Garbage collection overhead" ++
  issue_if (any_in lock_patterns name) "Synchronization/locking detected" ++
  issue_if (any_in json_patterns name) "JSON serialization overhead" ++
  issue_if (any_in sql_patterns name) "Database query overhead" ++
  issue_if (any_in reflect_patterns name) "Reflection usage (slow)" ++
  issue_if (any_in regex_patterns name) "Regular expression overhead" ++
  issue_if (any_in syscall_patterns name) "System call overhead".

(** Whether some rule fires. *)
Definition fires (func : FunctionStat.t) : bool :=
  let flat := FunctionStat.flat_pct func in
  let name := FunctionStat.name func in
  PyFloat.gt flat 10 || PyFloat.gt flat 5 ||
  PyFloat.gt (FunctionStat.cum_pct func) 20 ||
  any_in gc_patterns name || any_in lock_patterns name ||
  any_in json_patterns name || any_in sql_patterns name ||
  any_in reflect_patterns name || any_in regex_patterns name ||
  any_in syscall_patterns name.

(** ** The synthesizer in closed form *)

(** The entry of one block: none when no finding contributes to its
    group, else the block's category and suggestions, with the priority
    and the issue text of the sum of the contributing [flat_pct]. *)
Definition recommendation_of (hotspots : list Hotspot.t) (a : advice)
  : list Recommendation.t :=
  match contributing (a_key a) hotspots with
  | [] => []
  | _ :: _ =>
      let total := total_flat (contributing (a_key a) hotspots) in
      [Recommendation.Build (a_category a) (a_priority a total)
         (a_label a +:+ PyFloat.format_1f total +:+ "% CPU") (a_suggestions a)]
  end.

(** What the synthesizer reads of a finding. *)
Definition flat_and_issues (hotspot : Hotspot.t) : float * list string :=
  (Hotspot.flat_pct hotspot, Hotspot.issues hotspot).

(** The keywords on the name behind each group. *)
Definition key_patterns (key : string) : list string :=
  if String.eqb key "gc" then gc_patterns
  else if String.eqb key "lock" then lock_patterns
  else if String.eqb key "json" then json_patterns
  else if String.eqb key "sql" then sql_patterns
  else if String.eqb key "reflect" then reflect_patterns
  else if String.eqb key "regex" then regex_patterns
  else if String.eqb key "syscall" then syscall_patterns
  else [].

(** Whether every character of a string satisfies a test. *)
Fixpoint all_chars (p : ascii -> bool) (s : string) : bool :=
  match s with
  | EmptyString => true
  | String c s' => p c && all_chars p s'
  end.

(** Whether a character occurs in a string. *)
Fixpoint occurs (c : ascii) (s : string) : bool :=
  match s with
  | EmptyString => false
  | String c' s' => Ascii.eqb c c' || occurs c s'
  end.

(** Whether the recommendations have an entry of a category. *)
Definition advised (recommendations : list Recommendation.t) (category : string)
  : Prop :=
  In category (map Recommendation.category recommendations).

(** Whether some record has a name with one of the keywords. *)
Definition named (functions : list FunctionStat.t) (patterns : list string)
  : Prop :=
  Exists (fun func => any_in patterns (FunctionStat.name func) = true) functions.

(** A path component that pathlib keeps: not empty and not [.]. *)
Definition kept (component : string) : bool :=
  negb (PyStr.is_empty component) && negb (String.eqb component ".").

(** A token: not empty, and without white space. *)
Definition token (t : string) : Prop :=
  t <> "" /\ all_chars (fun c => negb (PyStr.is_space c)) t = true.

(** ** The finding of a record, and its entry in the report *)

(** The finding of a record that has an issue. *)
Definition finding_of (func : FunctionStat.t) : Hotspot.t :=
  Hotspot.Build (FunctionStat.name func) (FunctionStat.flat_pct func)
    (FunctionStat.cum_pct func) (final_priority func) (final_issues func).

(** The lines of the issues of an entry. *)
Definition issue_lines (issues : list string) : string :=
  String.concat "" (map (fun issue => "- " +:+ issue +:+ nl) issues).

(** The entry of the hotspot list for the finding numbered [i]: its
    heading with the number and the priority, the function, the two
    percentages with one decimal, and every issue on a line of its
    own. *)
Definition hotspot_entry (i : nat) (hotspot : Hotspot.t) : string :=
  ("### " +:+ PyStr.of_nat i +:+ ". "
     +:+ default "" (priority_emojis !! Hotspot.priority hotspot) +:+ " "
     +:+ Hotspot.priority hotspot +:+ " Priority" +:+ nl +:+ nl) +:+
  ("**Function:** `" +:+ Hotspot.function hotspot +:+ "`" +:+ nl +:+ nl) +:+
  ("**Metrics:**" +:+ nl) +:+
  ("- Direct CPU: " +:+ PyFloat.format_1f (Hotspot.flat_pct hotspot)
     +:+ "%" +:+ nl) +:+
  ("- Total CPU (with callees): "
     +:+ PyFloat.format_1f (Hotspot.cum_pct hotspot) +:+ "%" +:+ nl +:+ nl) +:+
  ("**Issues Identified:**" +:+ nl) +:+
  issue_lines (Hotspot.issues hotspot) +:+
  nl.

(** * Properties *)

(** ** Lines *)

Lemma string_app_cons x (a b : string) : String x a +:+ b = String x (a +:+ b).
Proof. reflexivity. Qed.

Lemma string_app_assoc (a b c : string) : (a +:+ b) +:+ c = a +:+ (b +:+ c).
Proof.
  induction a as [|x a IH]; [reflexivity|].
  rewrite !string_app_cons. f_equal. exact IH.
Qed.

Lemma string_app_nil_r (a : string) : a +:+ "" = a.
Proof.
  induction a as [|x a IH]; [reflexivity|].
  rewrite string_app_cons. f_equal. exact IH.
Qed.

Lemma one_line_cons a line :
  one_line (String a line) -> Ascii.eqb a "010" = false /\ one_line line.
Proof.
  unfold one_line, nl. cbn [PyStr.contains String.prefix].
  intros H. apply orb_false_iff in H as [H1 H2]. split; [|exact H2].
  destruct (Ascii.eqb_spec a "010") as [->|Hne]; [|reflexivity].
  destruct (ascii_dec "010" "010") as [_|Hn]; [|congruence].
  destruct line; discriminate H1.
Qed.

Lemma split_on_one_line line : one_line line -> PyStr.split_on "010" line = [line].
Proof.
  induction line as [|a line IH]; [reflexivity|].
  intros H. apply one_line_cons in H as [Ha Hl].
  cbn [PyStr.split_on]. rewrite Ha, (IH Hl). reflexivity.
Qed.

Lemma split_on_line_app line rest :
  one_line line ->
  PyStr.split_on "010" (line +:+ nl +:+ rest) = line :: PyStr.split_on "010" rest.
Proof.
  induction line as [|a line IH]; intros H.
  - reflexivity.
  - apply one_line_cons in H as [Ha Hl].
    change (String a line +:+ nl +:+ rest) with (String a (line +:+ nl +:+ rest)).
    cbn [PyStr.split_on]. rewrite Ha, (IH Hl). reflexivity.
Qed.

(** Splitting a text made of lines gives the lines back. *)
Lemma split_on_unlines lines :
  lines <> [] -> Forall one_line lines ->
  PyStr.split_on "010" (unlines lines) = lines.
Proof.
  induction lines as [|line lines IH]; [congruence|].
  intros _ Hall. inversion Hall as [|? ? Hline Hrest]; subst.
  destruct lines as [|line' lines].
  - cbn. apply split_on_one_line, Hline.
  - change (unlines (line :: line' :: lines))
      with (line +:+ nl +:+ unlines (line' :: lines)).
    rewrite split_on_line_app by exact Hline.
    f_equal. apply IH; [congruence | exact Hrest].
Qed.

(** ** The parser as a function of the lines *)

Lemma parse_row_raises parts e :
  parse_row parts = Raise e -> e = ValueError \/ e = IndexError.
Proof.
  unfold parse_row, index, float_of. cbn.
  repeat match goal with
         | |- context [match ?x with _ => _ end] => destruct x; cbn
         end; intros H; inversion H; auto.
Qed.

Lemma parse_line_next st line :
  parse_line st line =
  Ok (ParseState (data_started st || is_header line)
        (functions st ++
           (if data_started st then option_list (row_of line) else []))).
Proof.
  destruct st as [started rows]. unfold parse_line, row_of.
  cbn [data_started functions].
  destruct (is_header line).
  - rewrite orb_true_r. destruct started; cbn; rewrite app_nil_r; reflexivity.
  - rewrite orb_false_r. destruct started; cbn [negb orb];
      [|rewrite app_nil_r; reflexivity].
    destruct (PyStr.is_empty (PyStr.strip line)); cbn [option_list];
      [rewrite app_nil_r; reflexivity|].
    destruct (6 <=? length (PyStr.split line))%nat; cbn [option_list];
      [|rewrite app_nil_r; reflexivity].
    destruct (parse_row (PyStr.split line)) as [row|e] eqn:Hrow; [reflexivity|].
    apply parse_row_raises in Hrow as [-> | ->]; cbn [option_list];
      rewrite app_nil_r; reflexivity.
Qed.

Lemma parse_lines_from lines st :
  for_each parse_line lines st =
  Ok (ParseState (data_started st || existsb is_header lines)
        (functions st ++
           omap row_of (if data_started st then lines else after_header lines))).
Proof.
  revert st. induction lines as [|line lines IH]; intros [started rows].
  - destruct started; cbn; rewrite app_nil_r; reflexivity.
  - cbn [for_each]. rewrite parse_line_next. cbn -[omap].
    rewrite IH. cbn -[omap]. f_equal. f_equal.
    + rewrite orb_assoc. reflexivity.
    + rewrite <- app_assoc. f_equal.
      destruct started; cbn -[row_of].
      * destruct (row_of line); reflexivity.
      * destruct (is_header line); reflexivity.
Qed.

(** The parser never raises: it returns the records of the lines after
    the first header, in order. *)
Lemma parse_top_output_rows top_output :
  parse_top_output top_output =
  Ok (omap row_of (after_header (PyStr.split_on "010" top_output))).
Proof.
  unfold parse_top_output, parse_lines. rewrite parse_lines_from. reflexivity.
Qed.

(** ** Which lines yield a record *)

(** A line that is blank once stripped has no token. *)
Lemma strip_empty_split line :
  PyStr.is_empty (PyStr.strip line) = true -> PyStr.split line = [].
Proof.
  unfold PyStr.strip. induction line as [|a line IH]; [reflexivity|].
  cbn [PyStr.lstrip_with PyStr.split].
  destruct (PyStr.is_space a) eqn:Ha; [exact IH|].
  cbn [PyStr.rstrip_with]. rewrite Ha, andb_false_r. discriminate.
Qed.

(** The row of six tokens or more. *)
Lemma parse_row_cons t0 t1 t2 t3 t4 t5 rest :
  parse_row (t0 :: t1 :: t2 :: t3 :: t4 :: t5 :: rest) =
  match PyFloat.of_string (PyStr.rstrip "%" t1),
        PyFloat.of_string (PyStr.rstrip "%" t4) with
  | Some flat, Some cum =>
      Ok (FunctionStat.Build t0 flat t3 cum (PyStr.join " " (t5 :: rest)))
  | _, _ => Raise ValueError
  end.
Proof.
  unfold parse_row, index, float_of. cbn.
  destruct (PyFloat.of_string (PyStr.rstrip "%" t1)); cbn; [|reflexivity].
  destruct (PyFloat.of_string (PyStr.rstrip "%" t4)); reflexivity.
Qed.

Lemma six_tokens (parts : list string) :
  (6 <=? length parts)%nat = true ->
  exists t0 t1 t2 t3 t4 t5 rest, parts = t0 :: t1 :: t2 :: t3 :: t4 :: t5 :: rest.
Proof.
  intros H. do 6 (destruct parts as [|? parts]; [discriminate H|]).
  repeat eexists.
Qed.

(** A line after the header yields a record exactly when it is not
    itself a header line and is well formed. *)
Lemma row_of_is_Some line :
  is_Some (row_of line) <-> is_header line = false /\ well_formed line = true.
Proof.
  unfold row_of, well_formed.
  destruct (is_header line); [split; [intros [? [=]] | intros [[=] _]]|].
  destruct (PyStr.is_empty (PyStr.strip line)) eqn:Hblank.
  - rewrite (strip_empty_split _ Hblank). cbn.
    split; [intros [? [=]] | intros [_ [=]]].
  - destruct (6 <=? length (PyStr.split line))%nat eqn:Hlen;
      [|split; [intros [? [=]] | intros [_ [=]]]].
    destruct (six_tokens _ Hlen) as (t0 & t1 & t2 & t3 & t4 & t5 & rest & ->).
    rewrite parse_row_cons. cbn.
    destruct (PyFloat.of_string (PyStr.rstrip "%" t1));
      [|split; [intros [? [=]] | intros [_ [=]]]].
    destruct (PyFloat.of_string (PyStr.rstrip "%" t4));
      [|split; [intros [? [=]] | intros [_ [=]]]].
    split; [intros _; split; reflexivity | intros _; eexists; reflexivity].
Qed.

Lemma omap_length_filter {A B : Type} (f : A -> option B) (p : A -> bool)
    (xs : list A) :
  (forall x, is_Some (f x) <-> p x = true) ->
  length (omap f xs) = length (List.filter p xs).
Proof.
  intros Hfp. induction xs as [|x xs IH]; [reflexivity|].
  cbn. destruct (f x) as [y|] eqn:Hfx.
  - assert (p x = true) as -> by (apply Hfp; rewrite Hfx; eexists; reflexivity).
    cbn. f_equal. exact IH.
  - destruct (p x) eqn:Hpx; [|exact IH].
    apply Hfp in Hpx. rewrite Hfx in Hpx. destruct Hpx as [? [=]].
Qed.

(** C3, the counterexample: a data line whose function name holds both
    "flat" and "cum" is well formed and follows the header, yet the
    parser takes it for a header line and emits no record for it. *)
Lemma header_like_row_not_counted :
  ~ (forall top_output, exists rows,
        parse_top_output top_output = Ok rows /\
        length rows = claimed_record_count top_output).
Proof.
  intros H.
  destruct (H ("      flat  flat%   sum%        cum   cum%" +:+ nl +:+
               "10ms 5.0% 5.0% 20ms 10.0% main.flattenAccumulated"))
    as (rows & Hrows & Hlen).
  vm_compute in Hrows. injection Hrows as <-.
  vm_compute in Hlen. discriminate Hlen.
Qed.

(** C3, amended: the parser emits one record for each line after the
    first header line that is not itself a header line, has at least 6
    tokens and whose tokens 1 and 4, their trailing [%] removed, parse as
    floats; the records are in the order of their lines. *)
Theorem parse_record_count top_output :
  exists rows,
    parse_top_output top_output = Ok rows /\
    length rows = record_count top_output /\
    rows = omap row_of (after_header (PyStr.split_on "010" top_output)) /\
    forall line,
      is_Some (row_of line) <->
      is_header line = false /\ well_formed line = true.
Proof.
  eexists. split; [apply parse_top_output_rows|].
  split; [|split; [reflexivity | apply row_of_is_Some]].
  unfold record_count. apply omap_length_filter.
  intros line. rewrite row_of_is_Some, andb_true_iff, negb_true_iff.
  reflexivity.
Qed.

(** ** The classifier as a function of the records *)

Lemma omap_cons_eq {A B : Type} (f : A -> option B) (x : A) (xs : list A) :
  omap f (x :: xs) =
  match f x with Some y => y :: omap f xs | None => omap f xs end.
Proof. reflexivity. Qed.

Lemma identify_from functions hotspots :
  fold_left identify_step functions hotspots = hotspots ++ omap hotspot_of functions.
Proof.
  revert hotspots. induction functions as [|func functions IH]; intros hotspots.
  - cbn. rewrite app_nil_r. reflexivity.
  - cbn [fold_left]. rewrite IH, omap_cons_eq. unfold identify_step, hotspot_of.
    destruct (v_issues (classify func)).
    + reflexivity.
    + rewrite <- app_assoc. reflexivity.
Qed.

(** The findings are those of the records, in the order of the records. *)
Lemma identify_hotspots_omap functions :
  identify_hotspots functions = omap hotspot_of functions.
Proof. unfold identify_hotspots. rewrite identify_from. reflexivity. Qed.

Lemma pattern_rule_valid patterns text assign func v :
  match assign with Some (_, p) => valid_priority p | None => True end ->
  valid_priority (v_priority v) ->
  valid_priority (v_priority (pattern_rule patterns text assign func v)).
Proof.
  intros Hassign Hv. unfold pattern_rule.
  destruct (any_in patterns (FunctionStat.name func)); [|exact Hv].
  destruct assign as [[threshold p]|]; [|exact Hv].
  destruct (PyFloat.gt (FunctionStat.flat_pct func) threshold); assumption.
Qed.

Lemma rules_valid func :
  Forall (fun rule => forall v, valid_priority (v_priority v) ->
                               valid_priority (v_priority (rule func v))) rules.
Proof.
  unfold rules, valid_priority.
  repeat apply List.Forall_cons; try apply List.Forall_nil; intros v Hv;
    try (apply pattern_rule_valid; [cbn; unfold valid_priority; auto | exact Hv]).
  - unfold rule_flat.
    destruct (PyFloat.gt (FunctionStat.flat_pct func) 10); [cbn; auto|].
    destruct (PyFloat.gt (FunctionStat.flat_pct func) 5); [cbn; auto | exact Hv].
  - unfold rule_cum.
    destruct (PyFloat.gt (FunctionStat.cum_pct func) 20); [|exact Hv].
    cbn [v_priority]. destruct (negb _); [auto | exact Hv].
Qed.

Lemma run_rules_valid rs func v :
  Forall (fun rule => forall v, valid_priority (v_priority v) ->
                               valid_priority (v_priority (rule func v))) rs ->
  valid_priority (v_priority v) ->
  valid_priority (v_priority (run_rules rs func v)).
Proof.
  intros Hrs. revert v. induction Hrs as [|rule rs Hrule _ IH]; intros v Hv.
  - exact Hv.
  - cbn. apply IH, Hrule, Hv.
Qed.

Lemma classify_valid func : valid_priority (v_priority (classify func)).
Proof.
  apply run_rules_valid; [apply rules_valid | unfold valid_priority; auto].
Qed.

Lemma hotspot_of_valid func hotspot :
  hotspot_of func = Some hotspot ->
  valid_priority (Hotspot.priority hotspot) /\ Hotspot.issues hotspot <> [].
Proof.
  unfold hotspot_of. pose proof (classify_valid func) as Hv.
  destruct (v_issues (classify func)) eqn:Hissues; [discriminate|].
  intros [= <-]. cbn. split; [exact Hv | discriminate].
Qed.

Lemma identify_hotspots_valid functions :
  Forall (fun hotspot => valid_priority (Hotspot.priority hotspot) /\
                         Hotspot.issues hotspot <> [])
    (identify_hotspots functions).
Proof.
  rewrite identify_hotspots_omap.
  induction functions as [|func functions IH]; [constructor|].
  cbn. destruct (hotspot_of func) as [hotspot|] eqn:Hh; [|exact IH].
  constructor; [exact (hotspot_of_valid _ _ Hh) | exact IH].
Qed.

(** C1: the rule on json, marshal and unmarshal names and the rule on
    reflect names assign MEDIUM where the rule on [cum_pct] guards its
    assignment with [priority != 'HIGH']: a record that an earlier rule
    made HIGH leaves them MEDIUM.  Shown on two rows of a table, by the
    priority before the first rule and after each of the nine, and by
    the findings of the table. *)
Theorem json_and_reflect_rules_lower_high :
  parse_top_output
    ("      flat  flat%   sum%        cum   cum%" +:+ nl +:+
     "150ms 15.0% 15.0% 150ms 15.0% encoding/json.Marshal" +:+ nl +:+
     "120ms 12.0% 27.0% 120ms 12.0% reflect.Value.Call") =
    Ok [json_row; reflect_row] /\
  priorities_along json_row =
    ["LOW"; "HIGH"; "HIGH"; "HIGH"; "HIGH"; "MEDIUM"; "MEDIUM"; "MEDIUM";
     "MEDIUM"; "MEDIUM"] /\
  priorities_along reflect_row =
    ["LOW"; "HIGH"; "HIGH"; "HIGH"; "HIGH"; "HIGH"; "HIGH"; "MEDIUM";
     "MEDIUM"; "MEDIUM"] /\
  (rank "MEDIUM" < rank "HIGH")%nat /\
  identify_hotspots [json_row; reflect_row] =
    [Hotspot.Build "encoding/json.Marshal" 15 15 "MEDIUM"
       ["Consumes 15.0% CPU directly"; "JSON serialization overhead"];
     Hotspot.Build "reflect.Value.Call" 12 12 "MEDIUM"
       ["Consumes 12.0% CPU directly"; "Reflection usage (slow)"]].
Proof. repeat split; vm_compute; reflexivity. Qed.

(** ** The synthesizer as a function of the findings *)

Lemma group_key_in issue key : group_key issue = Some key -> In key group_keys.
Proof.
  unfold group_key, group_keys.
  repeat match goal with
         | |- context [if ?b then _ else _] => destruct b
         end; intros [= <-]; cbn; auto 10.
Qed.

(** Appending to a group: the group of the key grows, the others stay. *)
Lemma group_issue_lookup hotspot (groups : gmap string (list Hotspot.t)) issue :
  (forall key, In key group_keys -> is_Some (groups !! key)) ->
  exists groups' : gmap string (list Hotspot.t),
    group_issue hotspot groups issue = Ok groups' /\
    forall key,
      groups' !! key =
      (fun group =>
         group ++ (if decide (group_key issue = Some key) then [hotspot] else []))
        <$> groups !! key.
Proof.
  intros Hkeys. unfold group_issue.
  destruct (group_key issue) as [k|] eqn:Hk.
  - destruct (Hkeys k (group_key_in _ _ Hk)) as [members Hmembers].
    unfold group_append, group. rewrite Hmembers. cbn.
    eexists. split; [reflexivity|]. intros key.
    destruct (decide (k = key)) as [<-|Hne].
    + rewrite lookup_insert_eq, Hmembers. cbn.
      rewrite decide_True by reflexivity. reflexivity.
    + rewrite lookup_insert_ne by exact Hne.
      rewrite decide_False by congruence.
      destruct (groups !! key); cbn; [rewrite app_nil_r|]; reflexivity.
  - exists groups. split; [reflexivity|]. intros key.
    rewrite decide_False by discriminate.
    destruct (groups !! key); cbn; [rewrite app_nil_r|]; reflexivity.
Qed.

Lemma group_hotspot_lookup hotspot issues (groups : gmap string (list Hotspot.t)) :
  (forall key, In key group_keys -> is_Some (groups !! key)) ->
  exists groups' : gmap string (list Hotspot.t),
    for_each (group_issue hotspot) issues groups = Ok groups' /\
    forall key,
      groups' !! key =
      (fun group =>
         group ++
         flat_map
           (fun issue =>
              if decide (group_key issue = Some key) then [hotspot] else [])
           issues)
        <$> groups !! key.
Proof.
  revert groups. induction issues as [|issue issues IH]; intros groups Hkeys.
  - exists groups. split; [reflexivity|]. intros key.
    destruct (groups !! key); cbn; [rewrite app_nil_r|]; reflexivity.
  - destruct (group_issue_lookup hotspot groups issue Hkeys) as (g1 & Hg1 & Hl1).
    destruct (IH g1) as (g2 & Hg2 & Hl2).
    { intros key Hin. rewrite Hl1. destruct (Hkeys key Hin) as [g ->].
      eexists. reflexivity. }
    exists g2. split.
    + cbn [for_each]. rewrite Hg1. exact Hg2.
    + intros key. rewrite Hl2, Hl1.
      destruct (groups !! key); cbn; [|reflexivity].
      rewrite <- app_assoc. reflexivity.
Qed.

Lemma group_hotspots_lookup hotspots (groups : gmap string (list Hotspot.t)) :
  (forall key, In key group_keys -> is_Some (groups !! key)) ->
  exists groups' : gmap string (list Hotspot.t),
    for_each group_hotspot hotspots groups = Ok groups' /\
    forall key,
      groups' !! key =
      (fun group => group ++ contributing key hotspots) <$> groups !! key.
Proof.
  revert groups. induction hotspots as [|hotspot hotspots IH]; intros groups Hkeys.
  - exists groups. split; [reflexivity|]. intros key.
    destruct (groups !! key); cbn; [rewrite app_nil_r|]; reflexivity.
  - destruct (group_hotspot_lookup hotspot (Hotspot.issues hotspot) groups Hkeys)
      as (g1 & Hg1 & Hl1).
    destruct (IH g1) as (g2 & Hg2 & Hl2).
    { intros key Hin. rewrite Hl1. destruct (Hkeys key Hin) as [g ->].
      eexists. reflexivity. }
    exists g2. split.
    + cbn [for_each].
      replace (group_hotspot groups hotspot) with (Ok g1)
        by (symmetry; exact Hg1).
      exact Hg2.
    + intros key. rewrite Hl2, Hl1.
      destruct (groups !! key); cbn; [|reflexivity].
      rewrite <- app_assoc. reflexivity.
Qed.

(** The grouping never raises, and the group of each key holds the
    findings that contribute to it. *)
Lemma group_by_issue_contributing hotspots :
  exists groups : gmap string (list Hotspot.t),
    group_by_issue hotspots = Ok groups /\
    forall key, In key group_keys ->
                groups !! key = Some (contributing key hotspots).
Proof.
  destruct (group_hotspots_lookup hotspots issue_groups_init)
    as (groups & Hgroups & Hlookup).
  { intros key Hin. cbn in Hin.
    repeat (destruct Hin as [<-|Hin]; [eexists; reflexivity|]). destruct Hin. }
  exists groups. split; [exact Hgroups|]. intros key Hin. rewrite Hlookup.
  cbn in Hin.
  repeat (destruct Hin as [<-|Hin]; [reflexivity|]). destruct Hin.
Qed.

(** One block adds the entry of its group, if the group is not empty. *)
Lemma recommend_entry (groups : gmap string (list Hotspot.t)) hotspots
    recommendations a :
  groups !! a_key a = Some (contributing (a_key a) hotspots) ->
  exists added,
    recommend groups recommendations a = Ok (recommendations ++ added) /\
    map category_and_priority added =
      entry_of hotspots (a_key a) (a_category a) (a_priority a).
Proof.
  intros Hgroup. unfold recommend, group, entry_of. rewrite Hgroup. cbn.
  destruct (contributing (a_key a) hotspots).
  - exists []. rewrite app_nil_r. split; reflexivity.
  - eexists. split; reflexivity.
Qed.

(** The synthesizer never raises, and its entries are those of the five
    groups in order, under the names the code gives them. *)
Lemma generate_recommendations_entries hotspots :
  exists recommendations,
    generate_recommendations hotspots = Ok recommendations /\
    map category_and_priority recommendations = category_entries "Database" hotspots.
Proof.
  destruct (group_by_issue_contributing hotspots) as (groups & Hgroups & Hlookup).
  unfold generate_recommendations. rewrite Hgroups. cbn [mbind result_bind].
  unfold advices. cbn [for_each].
  destruct (recommend_entry groups hotspots [] advice_gc) as (r1 & H1 & E1);
    [apply Hlookup; cbn; auto 10|].
  rewrite H1. cbn [mbind result_bind].
  destruct (recommend_entry groups hotspots ([] ++ r1) advice_lock)
    as (r2 & H2 & E2); [apply Hlookup; cbn; auto 10|].
  rewrite H2. cbn [mbind result_bind].
  destruct (recommend_entry groups hotspots (([] ++ r1) ++ r2) advice_json)
    as (r3 & H3 & E3); [apply Hlookup; cbn; auto 10|].
  rewrite H3. cbn [mbind result_bind].
  destruct (recommend_entry groups hotspots ((([] ++ r1) ++ r2) ++ r3) advice_sql)
    as (r4 & H4 & E4); [apply Hlookup; cbn; auto 10|].
  rewrite H4. cbn [mbind result_bind].
  destruct (recommend_entry groups hotspots (((([] ++ r1) ++ r2) ++ r3) ++ r4)
              advice_reflect)
    as (r5 & H5 & E5); [apply Hlookup; cbn; auto 10|].
  rewrite H5. cbn [mbind result_bind].
  eexists. split; [reflexivity|].
  rewrite !map_app, E1, E2, E3, E4, E5. cbn [map app].
  unfold category_entries. rewrite <- !app_assoc. reflexivity.
Qed.

(** ** The text of the report *)

Lemma and_then_ok first second text text' :
  first = Ok text -> second = Ok text' ->
  (first >> second) = Ok (text +:+ text').
Proof. intros -> ->. reflexivity. Qed.

Lemma and_then_inv first second out :
  (first >> second) = Ok out ->
  exists text text', first = Ok text /\ second = Ok text' /\ out = text +:+ text'.
Proof.
  unfold and_then. destruct first as [text|e]; [|discriminate].
  destruct second as [text'|e]; [|discriminate]. cbn. intros [= <-].
  exists text, text'. auto.
Qed.

Lemma concat_empty_cons text texts :
  String.concat "" (text :: texts) = text +:+ String.concat "" texts.
Proof.
  destruct texts as [|text' texts]; [|reflexivity].
  cbn. rewrite string_app_nil_r. reflexivity.
Qed.

(** A loop writes the texts of its iterations, one after the other. *)
Lemma write_each_texts {A : Type} (body : nat -> A -> result string) xs :
  forall start texts,
    Forall2 (fun ix text => body ix.1 ix.2 = Ok text) (enumerate start xs) texts ->
    write_each body start xs = Ok (String.concat "" texts).
Proof.
  unfold enumerate. induction xs as [|x xs IH]; intros start texts Htexts.
  - inversion Htexts; subst. reflexivity.
  - cbn in Htexts. inversion Htexts as [|? text ? texts' Hx Hxs]; subst.
    cbn [write_each]. rewrite concat_empty_cons.
    apply and_then_ok; [exact Hx | apply IH, Hxs].
Qed.

(** A loop whose iterations all succeed succeeds. *)
Lemma write_each_total {A : Type} (body : nat -> A -> result string) xs :
  (forall i x, In x xs -> exists text, body i x = Ok text) ->
  forall start, exists texts,
    Forall2 (fun ix text => body ix.1 ix.2 = Ok text) (enumerate start xs) texts.
Proof.
  unfold enumerate. induction xs as [|x xs IH]; intros Hbody start.
  - exists []. constructor.
  - destruct (Hbody start x (or_introl eq_refl)) as [text Htext].
    destruct (IH (fun i y Hy => Hbody i y (or_intror Hy)) (S start))
      as [texts Htexts].
    exists (text :: texts). cbn. constructor; assumption.
Qed.

Lemma priority_emoji_valid priority :
  valid_priority priority -> exists emoji, priority_emoji priority = Ok emoji.
Proof. intros [-> | [-> | ->]]; eexists; reflexivity. Qed.

Lemma write_lines_ok (prefix : string) (xs : list string) start :
  exists text,
    write_each (fun _ x => write (prefix +:+ x +:+ nl)) start xs = Ok text.
Proof.
  destruct (write_each_total (fun _ x => write (prefix +:+ x +:+ nl)) xs)
    with (start := start) as [texts Htexts].
  - intros i x _. eexists. reflexivity.
  - eexists. apply write_each_texts, Htexts.
Qed.

Lemma write_hotspot_ok i hotspot :
  valid_priority (Hotspot.priority hotspot) ->
  exists text, write_hotspot i hotspot = Ok text.
Proof.
  intros Hv. destruct (priority_emoji_valid _ Hv) as [emoji Hemoji].
  destruct (write_lines_ok "- " (Hotspot.issues hotspot) 0) as [lines Hlines].
  unfold write_hotspot. rewrite Hemoji. cbn [mbind result_bind].
  unfold write at 1 2 3 4 5 6. unfold and_then at 1 2 3 4 5 6.
  cbn [mbind result_bind mret result_ret].
  rewrite Hlines. eexists. reflexivity.
Qed.

Lemma write_recommendation_ok i rec :
  valid_priority (Recommendation.priority rec) ->
  exists text, write_recommendation i rec = Ok text.
Proof.
  intros Hv. destruct (priority_emoji_valid _ Hv) as [emoji Hemoji].
  destruct (write_lines_ok "- " (Recommendation.suggestions rec) 0)
    as [lines Hlines].
  unfold write_recommendation. rewrite Hemoji. cbn [mbind result_bind].
  unfold write at 1 2 3 4. unfold and_then at 1 2 3 4.
  cbn [mbind result_bind mret result_ret].
  rewrite Hlines. eexists. reflexivity.
Qed.

Lemma print_hotspot_ok i hotspot :
  valid_priority (Hotspot.priority hotspot) -> Hotspot.issues hotspot <> [] ->
  exists text, print_hotspot i hotspot = Ok text.
Proof.
  intros Hv Hissues. destruct (priority_emoji_valid _ Hv) as [emoji Hemoji].
  unfold print_hotspot. rewrite Hemoji.
  destruct (Hotspot.issues hotspot) as [|issue issues]; [congruence|].
  eexists. reflexivity.
Qed.

Lemma write_summary_ok hotspots : exists text, write_summary hotspots = Ok text.
Proof. destruct hotspots; eexists; reflexivity. Qed.

Lemma write_title_ok self now : exists text, write_title self now = Ok text.
Proof. eexists. reflexivity. Qed.

Lemma write_next_steps_ok self : exists text, write_next_steps self = Ok text.
Proof. eexists. reflexivity. Qed.

Lemma write_footer_ok : exists text, write_footer = Ok text.
Proof. eexists. reflexivity. Qed.

(** The hotspot section: its heading, then the entries of the first ten
    findings, numbered from 1, or the statement that there is none. *)
Lemma write_hotspots_entries hotspots :
  Forall (fun hotspot => valid_priority (Hotspot.priority hotspot)) hotspots ->
  exists entries,
    Forall2 (fun ih entry => write_hotspot ih.1 ih.2 = Ok entry)
      (enumerate 1 (take 10 hotspots)) entries /\
    write_hotspots hotspots =
      Ok ("## ðŸ”¥ Top Performance Hotspots" +:+ nl +:+ nl +:+
          match hotspots with
          | [] => "No hotspots detected." +:+ nl +:+ nl
          | _ :: _ => String.concat "" entries
          end).
Proof.
  intros Hv.
  destruct (write_each_total write_hotspot (take 10 hotspots)) with (start := 1%nat)
    as [entries Hentries].
  { intros i x Hx. apply write_hotspot_ok.
    rewrite List.Forall_forall in Hv. apply Hv.
    apply list_elem_of_In. apply list_elem_of_In in Hx.
    exact (subseteq_take 10 hotspots x Hx). }
  exists entries. split; [exact Hentries|].
  unfold write_hotspots. destruct hotspots as [|hotspot hotspots]; [reflexivity|].
  rewrite (write_each_texts _ _ _ _ Hentries). reflexivity.
Qed.

Lemma write_recommendations_ok recommendations :
  Forall (fun rec => valid_priority (Recommendation.priority rec)) recommendations ->
  exists text, write_recommendations recommendations = Ok text.
Proof.
  intros Hv.
  destruct (write_each_total write_recommendation recommendations)
    with (start := 1%nat) as [entries Hentries].
  { intros i x Hx. apply write_recommendation_ok.
    rewrite List.Forall_forall in Hv. apply Hv, Hx. }
  unfold write_recommendations.
  destruct recommendations as [|rec recommendations]; [eexists; reflexivity|].
  rewrite (write_each_texts _ _ _ _ Hentries). eexists. reflexivity.
Qed.

Lemma print_summary_ok hotspots :
  Forall (fun hotspot => valid_priority (Hotspot.priority hotspot) /\
                         Hotspot.issues hotspot <> []) hotspots ->
  exists text, print_summary hotspots = Ok text.
Proof.
  intros Hv. unfold print_summary.
  destruct hotspots as [|hotspot found]; [eexists; reflexivity|].
  destruct (write_each_total print_hotspot (take 3 (hotspot :: found)))
    with (start := 1%nat) as [texts Htexts].
  { intros i x Hx. rewrite List.Forall_forall in Hv.
    assert (In x (hotspot :: found)) as Hin.
    { apply list_elem_of_In. apply list_elem_of_In in Hx.
      exact (subseteq_take 3 (hotspot :: found) x Hx). }
    destruct (Hv x Hin) as [Hp Hi]. apply print_hotspot_ok; assumption. }
  rewrite (write_each_texts _ _ _ _ Htexts). eexists. reflexivity.
Qed.

(** The report of findings and recommendations with priorities among
    the three is written to the end. *)
Lemma generate_report_ok self now :
  Forall (fun hotspot => valid_priority (Hotspot.priority hotspot))
    (hotspots self) ->
  Forall (fun rec => valid_priority (Recommendation.priority rec))
    (recommendations self) ->
  exists report, generate_report self now = Ok report.
Proof.
  intros Hh Hr.
  destruct (write_hotspots_entries _ Hh) as (entries & _ & Hfound).
  destruct (write_recommendations_ok _ Hr) as [advised Hadvised].
  destruct (write_summary_ok (hotspots self)) as [summary Hsummary].
  unfold generate_report. rewrite Hsummary, Hfound, Hadvised.
  eexists. reflexivity.
Qed.

(** ** The parser on a table *)

Lemma after_header_app pre rest :
  Exists (fun line => is_header line = true) pre ->
  after_header (pre ++ rest) = after_header pre ++ rest.
Proof.
  induction 1 as [line pre Hline | line pre _ IH]; cbn.
  - rewrite Hline. reflexivity.
  - destruct (is_header line); [reflexivity | exact IH].
Qed.

Lemma after_header_none lines :
  Forall (fun line => is_header line = false) lines -> after_header lines = [].
Proof.
  induction 1 as [|line lines Hline _ IH]; [reflexivity|].
  cbn. rewrite Hline. exact IH.
Qed.

(** The records of a table whose header is among the lines [pre]. *)
Lemma parse_unlines_app pre rest :
  Forall one_line (pre ++ rest) ->
  Exists (fun line => is_header line = true) pre ->
  parse_top_output (unlines (pre ++ rest)) =
  Ok (omap row_of (after_header pre) ++ omap row_of rest).
Proof.
  intros Hlines Hheader. rewrite parse_top_output_rows.
  rewrite split_on_unlines; [|destruct Hheader; discriminate | exact Hlines].
  rewrite after_header_app by exact Hheader. rewrite omap_app. reflexivity.
Qed.

(** A line that is not well formed yields no record. *)
Lemma row_of_ill_formed line : well_formed line = false -> row_of line = None.
Proof.
  intros Hill. destruct (row_of line) as [row|] eqn:Hrow; [|reflexivity].
  assert (is_Some (row_of line)) as Hsome by (rewrite Hrow; eexists; reflexivity).
  apply row_of_is_Some in Hsome as [_ Hwell]. congruence.
Qed.

(** The record of a line that is not a header line, has six tokens or
    more, and whose tokens 1 and 4 parse. *)
Lemma row_of_parsed line tok1 tok4 flat cum :
  is_header line = false ->
  (6 <= length (PyStr.split line))%nat ->
  PyStr.split line !! 1%nat = Some tok1 ->
  PyStr.split line !! 4%nat = Some tok4 ->
  PyFloat.of_string (PyStr.rstrip "%" tok1) = Some flat ->
  PyFloat.of_string (PyStr.rstrip "%" tok4) = Some cum ->
  exists row,
    row_of line = Some row /\
    FunctionStat.flat_pct row = flat /\ FunctionStat.cum_pct row = cum.
Proof.
  intros Hheader Hlen H1 H4 Hflat Hcum. unfold row_of. rewrite Hheader.
  destruct (PyStr.is_empty (PyStr.strip line)) eqn:Hblank.
  { rewrite (strip_empty_split _ Hblank) in Hlen. cbn in Hlen. lia. }
  apply Nat.leb_le in Hlen. cbv zeta. rewrite Hlen.
  destruct (six_tokens _ Hlen) as (t0 & t1 & t2 & t3 & t4 & t5 & rest & Hparts).
  rewrite Hparts in *. cbn in H1, H4. injection H1 as ->. injection H4 as ->.
  rewrite parse_row_cons, Hflat, Hcum. eexists. repeat split.
Qed.

(** ** The claims on the parser *)

(** C5: after any header line, the line of the garbage collector's
    worker yields one record with [flat_pct] 15.0 and [cum_pct] 25.0; its
    finding is HIGH with the issues of direct consumption (15.0%), of the
    call tree (25.0%) and of garbage collection, in this order; and the
    one recommendation is Memory Management, HIGH, the sum 15.0 being
    above 10. *)
Theorem gc_worker_scenario header :
  one_line header ->
  is_header header = true ->
  parse_top_output
    (header +:+ nl +:+ "50ms 15.0% 15.0% 80ms 25.0% runtime.gcBgMarkWorker") =
    Ok [FunctionStat.Build "50ms" 15 "80ms" 25 "runtime.gcBgMarkWorker"] /\
  identify_hotspots
    [FunctionStat.Build "50ms" 15 "80ms" 25 "runtime.gcBgMarkWorker"] =
    [Hotspot.Build "runtime.gcBgMarkWorker" 15 25 "HIGH"
       ["Consumes 15.0% CPU directly"; "Call tree consumes 25.0% total CPU";
        "Garbage collection overhead"]] /\
  generate_recommendations
    [Hotspot.Build "runtime.gcBgMarkWorker" 15 25 "HIGH"
       ["Consumes 15.0% CPU directly"; "Call tree consumes 25.0% total CPU";
        "Garbage collection overhead"]] =
    Ok [Recommendation.Build "Memory Management" "HIGH" "GC overhead: 15.0% CPU"
          (a_suggestions advice_gc)] /\
  total_flat
    (contributing "gc"
       [Hotspot.Build "runtime.gcBgMarkWorker" 15 25 "HIGH"
          ["Consumes 15.0% CPU directly"; "Call tree consumes 25.0% total CPU";
           "Garbage collection overhead"]]) = 15%float /\
  PyFloat.gt 15 10 = true.
Proof.
  intros Hline Hheader. split; [|repeat split; vm_compute; reflexivity].
  rewrite parse_top_output_rows, split_on_line_app by exact Hline.
  cbn [after_header]. rewrite Hheader. vm_compute. reflexivity.
Qed.

(** The scenario after the header line that [pprof -top] prints. *)
Lemma gc_worker_scenario_witness :
  parse_top_output
    ("      flat  flat%   sum%        cum   cum%" +:+ nl +:+
     "50ms 15.0% 15.0% 80ms 25.0% runtime.gcBgMarkWorker") =
    Ok [FunctionStat.Build "50ms" 15 "80ms" 25 "runtime.gcBgMarkWorker"] /\
  identify_hotspots
    [FunctionStat.Build "50ms" 15 "80ms" 25 "runtime.gcBgMarkWorker"] =
    [Hotspot.Build "runtime.gcBgMarkWorker" 15 25 "HIGH"
       ["Consumes 15.0% CPU directly"; "Call tree consumes 25.0% total CPU";
        "Garbage collection overhead"]] /\
  generate_recommendations
    [Hotspot.Build "runtime.gcBgMarkWorker" 15 25 "HIGH"
       ["Consumes 15.0% CPU directly"; "Call tree consumes 25.0% total CPU";
        "Garbage collection overhead"]] =
    Ok [Recommendation.Build "Memory Management" "HIGH" "GC overhead: 15.0% CPU"
          (a_suggestions advice_gc)] /\
  total_flat
    (contributing "gc"
       [Hotspot.Build "runtime.gcBgMarkWorker" 15 25 "HIGH"
          ["Consumes 15.0% CPU directly"; "Call tree consumes 25.0% total CPU";
           "Garbage collection overhead"]]) = 15%float /\
  PyFloat.gt 15 10 = true.
Proof.
  apply (gc_worker_scenario "      flat  flat%   sum%        cum   cum%");
    vm_compute; reflexivity.
Defined.

(** ** The claims on the synthesizer *)

(** C4, the counterexample: the entry of the sql group is named
    "Database", not "Data Access". *)
Lemma data_category_is_not_data_access :
  ~ (forall hotspots, exists recommendations,
        generate_recommendations hotspots = Ok recommendations /\
        map category_and_priority recommendations =
          category_entries "Data Access" hotspots).
Proof.
  intros H.
  destruct (H [Hotspot.Build "database/sql.(*DB).Query" 6 6 "HIGH"
                 ["Consumes 6.0% CPU directly"; "Database query overhead"]])
    as (recommendations & Hrecs & Hentries).
  vm_compute in Hrecs. injection Hrecs as <-.
  vm_compute in Hentries. discriminate Hentries.
Qed.

Lemma entry_of_valid hotspots key category priority :
  (forall total, valid_priority (priority total)) ->
  Forall (fun entry => valid_priority entry.2)
    (entry_of hotspots key category priority).
Proof.
  intros Hv. unfold entry_of. destruct (contributing key hotspots).
  - constructor.
  - constructor; [apply Hv | constructor].
Qed.

Lemma generate_recommendations_valid hotspots :
  exists recommendations,
    generate_recommendations hotspots = Ok recommendations /\
    Forall (fun rec => valid_priority (Recommendation.priority rec))
      recommendations.
Proof.
  destruct (generate_recommendations_entries hotspots) as (recs & Hrecs & Hmap).
  exists recs. split; [exact Hrecs|].
  assert (Forall (fun entry : string * string => valid_priority entry.2)
            (map category_and_priority recs)) as Hv.
  { rewrite Hmap. unfold category_entries.
    repeat apply Forall_app_2; apply entry_of_valid; intros total;
      unfold valid_priority; try destruct (PyFloat.gt _ _); auto. }
  clear Hmap Hrecs. induction recs as [|rec recs IH]; [constructor|].
  inversion Hv; subst. constructor; [assumption | apply IH; assumption].
Qed.

(** C4, amended: the synthesizer emits one entry for each group that is
    not empty, in the order Memory Management, Concurrency,
    Serialization, Database, Code Generation, under exactly these names,
    with the priorities the thresholds on the sum of the contributing
    findings' [flat_pct] give; a group no finding contributes to has no
    entry.  The group of a key holds each finding once for each of its
    issue texts that the chain of tests sends to the key. *)
Theorem recommendations_by_category hotspots :
  exists (groups : gmap string (list Hotspot.t)) recommendations,
    group_by_issue hotspots = Ok groups /\
    (forall key, In key group_keys ->
                 groups !! key = Some (contributing key hotspots)) /\
    generate_recommendations hotspots = Ok recommendations /\
    map category_and_priority recommendations =
      category_entries "Database" hotspots /\
    Forall (fun rec => valid_priority (Recommendation.priority rec))
      recommendations.
Proof.
  destruct (group_by_issue_contributing hotspots) as (groups & Hgroups & Hlookup).
  destruct (generate_recommendations_entries hotspots) as (recs & Hrecs & Hmap).
  destruct (generate_recommendations_valid hotspots) as (recs' & Hrecs' & Hvalid).
  assert (recs' = recs) as -> by congruence.
  exists groups, recs. auto.
Qed.

(** ** The pipeline as a whole *)

(** [analyze] never raises. *)
Lemma analyze_total self now top_output :
  exists outcome, analyze self now top_output = Ok outcome.
Proof.
  unfold analyze. destruct (PyStr.is_empty top_output); [eexists; reflexivity|].
  rewrite parse_top_output_rows. cbn [mbind result_bind].
  set (found := identify_hotspots _).
  pose proof (identify_hotspots_valid
                (omap row_of (after_header (PyStr.split_on "010" top_output))))
    as Hv. fold found in Hv.
  destruct (generate_recommendations_valid found) as (recs & -> & Hr).
  cbn [mbind result_bind].
  destruct (generate_report_ok
              (Build_Analyzer (profile_path self) (profile_name self) found recs)
              now) as [report ->].
  { eapply Forall_impl; [exact Hv|]. intros hotspot [Hp _]. exact Hp. }
  { exact Hr. }
  destruct (print_summary_ok found Hv) as [summary ->].
  eexists. reflexivity.
Qed.

(** C6: parsing never raises, and neither does what follows it:
    classification, which is a total function of the records, and the
    rest of [analyze].  Once the header has been seen, a line with fewer
    than 6 tokens, or whose token 1 or 4 does not parse as a float, is
    dropped as a whole: the records are those of the text without it. *)
Theorem malformed_line_is_dropped self now top_output pre bad post :
  Forall one_line (pre ++ bad :: post) ->
  Exists (fun line => is_header line = true) pre ->
  (length (PyStr.split bad) < 6)%nat \/
    parses (PyStr.split bad !! 1%nat) = false \/
    parses (PyStr.split bad !! 4%nat) = false ->
  (exists rows, parse_top_output top_output = Ok rows) /\
  (exists outcome, analyze self now top_output = Ok outcome) /\
  exists rows,
    parse_top_output (unlines (pre ++ bad :: post)) = Ok rows /\
    parse_top_output (unlines (pre ++ post)) = Ok rows.
Proof.
  intros Hlines Hheader Hbad.
  split; [eexists; apply parse_top_output_rows|].
  split; [apply analyze_total|].
  assert (well_formed bad = false) as Hill.
  { unfold well_formed. destruct Hbad as [Hlen | [H1 | H4]].
    - apply Nat.leb_gt in Hlen. rewrite Hlen. reflexivity.
    - rewrite H1, andb_false_r. reflexivity.
    - rewrite H4, andb_false_r. reflexivity. }
  eexists. split.
  - rewrite parse_unlines_app by assumption.
    rewrite omap_cons_eq, (row_of_ill_formed _ Hill). reflexivity.
  - apply parse_unlines_app; [|exact Hheader].
    apply Forall_app in Hlines as [Hpre Hrest]. apply Forall_app. split; [exact Hpre|].
    inversion Hrest; assumption.
Qed.

(** A table with a line of four tokens between two rows. *)
Lemma malformed_line_is_dropped_witness :
  (exists rows, parse_top_output "" = Ok rows) /\
  (exists outcome,
      analyze (Build_Analyzer "cpu.pb.gz" "cpu.pb" [] [])
        (Datetime 2024 1 2 3 4 5) "" = Ok outcome) /\
  exists rows,
    parse_top_output
      (unlines
         (["      flat  flat%   sum%        cum   cum%";
           "50ms 15.0% 15.0% 80ms 25.0% runtime.gcBgMarkWorker"] ++
          "10ms 3.0% 18.0% 30ms" ::
          ["20ms 6.0% 24.0% 40ms 12.0% sync.(*Mutex).Lock"])) = Ok rows /\
    parse_top_output
      (unlines
         (["      flat  flat%   sum%        cum   cum%";
           "50ms 15.0% 15.0% 80ms 25.0% runtime.gcBgMarkWorker"] ++
          ["20ms 6.0% 24.0% 40ms 12.0% sync.(*Mutex).Lock"])) = Ok rows.
Proof.
  apply malformed_line_is_dropped.
  - repeat constructor.
  - apply Exists_cons_hd. reflexivity.
  - left. vm_compute. repeat constructor.
Defined.

(** The same table with a row whose percentage is not a number. *)
Example unparsable_percentage_dropped :
  parse_top_output
    (unlines
       ["      flat  flat%   sum%        cum   cum%";
        "50ms 15.0% 15.0% 80ms 25.0% runtime.gcBgMarkWorker";
        "10ms n/a 18.0% 30ms 7.0% main.handleOrder";
        "20ms 6.0% 24.0% 40ms 12.0% sync.(*Mutex).Lock"]) =
    Ok [FunctionStat.Build "50ms" 15 "80ms" 25 "runtime.gcBgMarkWorker";
        FunctionStat.Build "20ms" 6 "40ms" 12 "sync.(*Mutex).Lock"].
Proof. vm_compute. reflexivity. Qed.

(** ** The claims on the report *)

(** The report is the text of its six parts, in order. *)
Lemma generate_report_parts self now title summary found advised steps footer :
  write_title self now = Ok title ->
  write_summary (hotspots self) = Ok summary ->
  write_hotspots (hotspots self) = Ok found ->
  write_recommendations (recommendations self) = Ok advised ->
  write_next_steps self = Ok steps ->
  write_footer = Ok footer ->
  generate_report self now =
    Ok (title +:+ summary +:+ found +:+ advised +:+ steps +:+ footer).
Proof.
  intros Ht Hs Hf Ha Hn Hfo. unfold generate_report.
  repeat (apply and_then_ok; [assumption|]). exact Hfo.
Qed.

Lemma generate_report_inv self now report :
  generate_report self now = Ok report ->
  exists title summary found advised steps footer,
    write_title self now = Ok title /\
    write_summary (hotspots self) = Ok summary /\
    write_hotspots (hotspots self) = Ok found /\
    write_recommendations (recommendations self) = Ok advised /\
    write_next_steps self = Ok steps /\
    write_footer = Ok footer /\
    report = title +:+ summary +:+ found +:+ advised +:+ steps +:+ footer.
Proof.
  unfold generate_report. intros H.
  apply and_then_inv in H as (title & r1 & Ht & H & ->).
  apply and_then_inv in H as (summary & r2 & Hs & H & ->).
  apply and_then_inv in H as (found & r3 & Hf & H & ->).
  apply and_then_inv in H as (advised & r4 & Ha & H & ->).
  apply and_then_inv in H as (steps & footer & Hn & Hfo & ->).
  exists title, summary, found, advised, steps, footer. auto 10.
Qed.

(** C2, the counterexample: with the same analyzer, hence the same two
    sequences, the report of one second later differs. *)
Lemma report_depends_on_clock :
  ~ (forall self1 now1 self2 now2,
        hotspots self1 = hotspots self2 ->
        recommendations self1 = recommendations self2 ->
        generate_report self1 now1 = generate_report self2 now2).
Proof.
  intros H.
  specialize (H (Build_Analyzer "cpu.pb.gz" "cpu.pb" [] [])
                (Datetime 2024 1 2 3 4 5)
                (Build_Analyzer "cpu.pb.gz" "cpu.pb" [] [])
                (Datetime 2024 1 2 3 4 6) eq_refl eq_refl).
  vm_compute in H. discriminate H.
Qed.

(** C2, amended: the report is a function of the two sequences, of the
    profile's name and path, and of the clock reading to the second: two
    renderings that agree on these give the same text.  Whatever the
    name, path and clock, two renderings of the same two sequences
    differ only before the summary and after the recommendations: the
    summary, hotspot and recommendation sections are the same text. *)
Theorem report_determined_by_inputs self1 now1 self2 now2 :
  hotspots self1 = hotspots self2 ->
  recommendations self1 = recommendations self2 ->
  (profile_path self1 = profile_path self2 ->
   profile_name self1 = profile_name self2 ->
   strftime now1 = strftime now2 ->
   generate_report self1 now1 = generate_report self2 now2) /\
  (forall report1 report2,
      generate_report self1 now1 = Ok report1 ->
      generate_report self2 now2 = Ok report2 ->
      exists title1 title2 sections closing1 closing2,
        report1 = title1 +:+ sections +:+ closing1 /\
        report2 = title2 +:+ sections +:+ closing2 /\
        write_title self1 now1 = Ok title1 /\
        write_title self2 now2 = Ok title2 /\
        (write_summary (hotspots self1) >> write_hotspots (hotspots self1) >>
         write_recommendations (recommendations self1)) = Ok sections /\
        (write_next_steps self1 >> write_footer) = Ok closing1 /\
        (write_next_steps self2 >> write_footer) = Ok closing2).
Proof.
  intros Hhot Hrec. split.
  - intros Hpath Hname Hnow.
    unfold generate_report, write_title, write_next_steps.
    rewrite Hhot, Hrec, Hpath, Hname, Hnow. reflexivity.
  - intros report1 report2 H1 H2.
    apply generate_report_inv in H1
      as (t1 & s1 & f1 & a1 & n1 & fo1 & Ht1 & Hs1 & Hf1 & Ha1 & Hn1 & Hfo1 & ->).
    apply generate_report_inv in H2
      as (t2 & s2 & f2 & a2 & n2 & fo2 & Ht2 & Hs2 & Hf2 & Ha2 & Hn2 & Hfo2 & ->).
    rewrite <- Hhot in Hs2, Hf2. rewrite <- Hrec in Ha2.
    assert (s2 = s1) as -> by congruence.
    assert (f2 = f1) as -> by congruence.
    assert (a2 = a1) as -> by congruence.
    exists t1, t2, (s1 +:+ f1 +:+ a1), (n1 +:+ fo1), (n2 +:+ fo2).
    rewrite !string_app_assoc.
    repeat split; try assumption;
      repeat (apply and_then_ok; [assumption|]); assumption.
Qed.

(** One analyzer rendered twice, and two analyzers without findings
    rendered at different times. *)
Lemma report_determined_by_inputs_witness :
  generate_report (Build_Analyzer "cpu.pb.gz" "cpu.pb" [] [])
    (Datetime 2024 1 2 3 4 5) =
  generate_report (Build_Analyzer "cpu.pb.gz" "cpu.pb" [] [])
    (Datetime 2024 1 2 3 4 5) /\
  (forall report1 report2,
      generate_report (Build_Analyzer "cpu.pb.gz" "cpu.pb" [] [])
        (Datetime 2024 1 2 3 4 5) = Ok report1 ->
      generate_report (Build_Analyzer "mem.pb.gz" "mem.pb" [] [])
        (Datetime 2025 6 7 8 9 10) = Ok report2 ->
      exists title1 title2 sections closing1 closing2,
        report1 = title1 +:+ sections +:+ closing1 /\
        report2 = title2 +:+ sections +:+ closing2 /\
        write_title (Build_Analyzer "cpu.pb.gz" "cpu.pb" [] [])
          (Datetime 2024 1 2 3 4 5) = Ok title1 /\
        write_title (Build_Analyzer "mem.pb.gz" "mem.pb" [] [])
          (Datetime 2025 6 7 8 9 10) = Ok title2 /\
        (write_summary [] >> write_hotspots [] >> write_recommendations [])
          = Ok sections /\
        (write_next_steps (Build_Analyzer "cpu.pb.gz" "cpu.pb" [] []) >>
         write_footer) = Ok closing1 /\
        (write_next_steps (Build_Analyzer "mem.pb.gz" "mem.pb" [] []) >>
         write_footer) = Ok closing2).
Proof.
  split.
  - exact (proj1 (report_determined_by_inputs
                    (Build_Analyzer "cpu.pb.gz" "cpu.pb" [] [])
                    (Datetime 2024 1 2 3 4 5)
                    (Build_Analyzer "cpu.pb.gz" "cpu.pb" [] [])
                    (Datetime 2024 1 2 3 4 5) eq_refl eq_refl)
             eq_refl eq_refl eq_refl).
  - exact (proj2 (report_determined_by_inputs
                    (Build_Analyzer "cpu.pb.gz" "cpu.pb" [] [])
                    (Datetime 2024 1 2 3 4 5)
                    (Build_Analyzer "mem.pb.gz" "mem.pb" [] [])
                    (Datetime 2025 6 7 8 9 10) eq_refl eq_refl)).
Defined.

(** C7: a text none of whose lines is a header line, the empty text
    among them, parses to no record, without error; no record gives no
    finding and no finding no recommendation; and the report of no
    finding and no recommendation states, under the headings of the
    summary, of the hotspots and of the recommendations, that there is
    none.  When the text is not empty this is the report of [analyze]
    (which gives up before parsing on the empty text). *)
Theorem headerless_input_gives_empty_report top_output self now :
  Forall (fun line => is_header line = false) (PyStr.split_on "010" top_output) ->
  parse_top_output top_output = Ok [] /\
  identify_hotspots [] = [] /\
  generate_recommendations [] = Ok [] /\
  exists title closing,
    write_title self now = Ok title /\
    (write_next_steps self >> write_footer) = Ok closing /\
    generate_report
      (Build_Analyzer (profile_path self) (profile_name self) [] []) now =
      Ok (title +:+
          "## ðŸŽ¯ Executive Summary" +:+ nl +:+ nl +:+
          "No significant hotspots detected. Performance appears optimal."
            +:+ nl +:+ nl +:+
          "## ðŸ”¥ Top Performance Hotspots" +:+ nl +:+ nl +:+
          "No hotspots detected." +:+ nl +:+ nl +:+
          "## ðŸ’¡ Optimization Recommendations" +:+ nl +:+ nl +:+
          "No specific recommendations. Profile looks healthy!" +:+ nl +:+ nl +:+
          closing) /\
    (top_output <> "" ->
     exists report,
       generate_report
         (Build_Analyzer (profile_path self) (profile_name self) [] []) now =
         Ok report /\
       analyze self now top_output =
         Ok (Some (Build_Analyzer (profile_path self) (profile_name self) [] [],
                   report, ""))).
Proof.
  intros Hheaderless.
  assert (parse_top_output top_output = Ok []) as Hparse.
  { rewrite parse_top_output_rows, after_header_none by exact Hheaderless.
    reflexivity. }
  split; [exact Hparse|]. split; [reflexivity|]. split; [reflexivity|].
  eexists. eexists. split; [reflexivity|]. split; [reflexivity|].
  split; [reflexivity|].
  intros Hne. eexists. split; [reflexivity|].
  unfold analyze. destruct top_output as [|c top_output]; [congruence|].
  cbn [PyStr.is_empty]. rewrite Hparse. reflexivity.
Qed.

(** The empty text. *)
Lemma headerless_input_gives_empty_report_witness :
  parse_top_output "" = Ok [] /\
  identify_hotspots [] = [] /\
  generate_recommendations [] = Ok [] /\
  exists title closing,
    write_title (Build_Analyzer "cpu.pb.gz" "cpu.pb" [] [])
      (Datetime 2024 1 2 3 4 5) = Ok title /\
    (write_next_steps (Build_Analyzer "cpu.pb.gz" "cpu.pb" [] []) >>
     write_footer) = Ok closing /\
    generate_report (Build_Analyzer "cpu.pb.gz" "cpu.pb" [] [])
      (Datetime 2024 1 2 3 4 5) =
      Ok (title +:+
          "## ðŸŽ¯ Executive Summary" +:+ nl +:+ nl +:+
          "No significant hotspots detected. Performance appears optimal."
            +:+ nl +:+ nl +:+
          "## ðŸ”¥ Top Performance Hotspots" +:+ nl +:+ nl +:+
          "No hotspots detected." +:+ nl +:+ nl +:+
          "## ðŸ’¡ Optimization Recommendations" +:+ nl +:+ nl +:+
          "No specific recommendations. Profile looks healthy!" +:+ nl +:+ nl +:+
          closing) /\
    ("" <> "" ->
     exists report,
       generate_report (Build_Analyzer "cpu.pb.gz" "cpu.pb" [] [])
         (Datetime 2024 1 2 3 4 5) = Ok report /\
       analyze (Build_Analyzer "cpu.pb.gz" "cpu.pb" [] [])
         (Datetime 2024 1 2 3 4 5) "" =
         Ok (Some (Build_Analyzer "cpu.pb.gz" "cpu.pb" [] [], report, ""))).
Proof.
  apply (headerless_input_gives_empty_report ""
           (Build_Analyzer "cpu.pb.gz" "cpu.pb" [] []) (Datetime 2024 1 2 3 4 5)).
  repeat constructor.
Defined.

(** On the empty text [analyze] returns [None]: no report is written. *)
Example analyze_empty_text self now : analyze self now "" = Ok None.
Proof. reflexivity. Qed.

(** A text of one line that is no header goes through [analyze] and
    gives the report of no finding. *)
Example analyze_headerless_text :
  exists report,
    analyze (Build_Analyzer "cpu.pb.gz" "cpu.pb" [] []) (Datetime 2024 1 2 3 4 5)
      "pprof: no samples" =
      Ok (Some (Build_Analyzer "cpu.pb.gz" "cpu.pb" [] [], report, "")) /\
    PyStr.contains "No hotspots detected." report = true /\
    PyStr.contains "No specific recommendations. Profile looks healthy!" report
      = true.
Proof. eexists. split; [vm_compute; reflexivity|]. split; vm_compute; reflexivity. Qed.

(** ** The claims on the findings in the report *)

(** C10: every finding of the classifier has one of the three
    priorities and at least one issue; so the lookup of its priority
    mark and the access to its first issue succeed, and neither the
    hotspot section of the report nor the quick summary raises. *)
Theorem classifier_findings_render functions :
  Forall (fun hotspot => valid_priority (Hotspot.priority hotspot) /\
                         Hotspot.issues hotspot <> [])
    (identify_hotspots functions) /\
  Forall (fun hotspot =>
            (exists emoji, priority_emoji (Hotspot.priority hotspot) = Ok emoji) /\
            (exists issue, index (Hotspot.issues hotspot) 0 = Ok issue))
    (identify_hotspots functions) /\
  (exists text, write_hotspots (identify_hotspots functions) = Ok text) /\
  (exists text, print_summary (identify_hotspots functions) = Ok text).
Proof.
  pose proof (identify_hotspots_valid functions) as Hv.
  split; [exact Hv|]. split; [|split].
  - eapply Forall_impl; [exact Hv|]. intros hotspot [Hp Hi]. split.
    + apply priority_emoji_valid, Hp.
    + destruct (Hotspot.issues hotspot) as [|issue issues]; [congruence|].
      exists issue. reflexivity.
  - destruct (write_hotspots_entries (identify_hotspots functions))
      as (entries & _ & Hfound).
    + eapply Forall_impl; [exact Hv|]. intros hotspot [Hp _]. exact Hp.
    + eexists. exact Hfound.
  - apply print_summary_ok, Hv.
Qed.

(** * Further properties *)

(** ** The classifier in closed form *)

(** A rule on the name, on a verdict: the priority is assigned when the
    name matches and the threshold is passed, the issue is added when
    the name matches. *)
Lemma pattern_rule_assign patterns text threshold assigned func priority issues :
  pattern_rule patterns text (Some (threshold, assigned)) func
    (Verdict priority issues) =
  Verdict
    (if any_in patterns (FunctionStat.name func) &&
        PyFloat.gt (FunctionStat.flat_pct func) threshold
     then assigned else priority)
    (issues ++ issue_if (any_in patterns (FunctionStat.name func)) text).
Proof.
  unfold pattern_rule, issue_if. cbn [v_priority v_issues].
  destruct (any_in patterns (FunctionStat.name func)); cbn [andb].
  - destruct (PyFloat.gt (FunctionStat.flat_pct func) threshold); reflexivity.
  - rewrite app_nil_r. reflexivity.
Qed.

Lemma pattern_rule_keep patterns text func priority issues :
  pattern_rule patterns text None func (Verdict priority issues) =
  Verdict priority
    (issues ++ issue_if (any_in patterns (FunctionStat.name func)) text).
Proof.
  unfold pattern_rule, issue_if. cbn [v_priority v_issues].
  destruct (any_in patterns (FunctionStat.name func)); [reflexivity|].
  rewrite app_nil_r. reflexivity.
Qed.

(** The two rules on the percentages, from LOW and no issue. *)
Lemma percentage_rules func :
  rule_cum func (rule_flat func (Verdict "LOW" [])) =
  Verdict
    (if PyFloat.gt (FunctionStat.cum_pct func) 20 then
       if PyFloat.gt (FunctionStat.flat_pct func) 10 then "HIGH" else "MEDIUM"
     else if PyFloat.gt (FunctionStat.flat_pct func) 10 then "HIGH"
     else if PyFloat.gt (FunctionStat.flat_pct func) 5 then "MEDIUM"
     else "LOW")
    (issue_if (PyFloat.gt (FunctionStat.flat_pct func) 10 ||
               PyFloat.gt (FunctionStat.flat_pct func) 5)
       ("Consumes " +:+ PyFloat.format_1f (FunctionStat.flat_pct func)
          +:+ "% CPU directly") ++
     issue_if (PyFloat.gt (FunctionStat.cum_pct func) 20)
       ("Call tree consumes " +:+ PyFloat.format_1f (FunctionStat.cum_pct func)
          +:+ "% total CPU")).
Proof.
  unfold rule_cum, rule_flat, issue_if.
  destruct (PyFloat.gt (FunctionStat.flat_pct func) 10);
    destruct (PyFloat.gt (FunctionStat.flat_pct func) 5);
    destruct (PyFloat.gt (FunctionStat.cum_pct func) 20); reflexivity.
Qed.

(** The rules, run in order from LOW and no issue, leave the priority
    of the last rule that assigns one and the issues of the rules that
    fire. *)
Lemma classify_closed_form func :
  classify func = Verdict (final_priority func) (final_issues func).
Proof.
  unfold classify, rules, run_rules. cbv [fold_left].
  rewrite percentage_rules.
  unfold rule_gc, rule_lock, rule_json, rule_sql, rule_reflect, rule_regex,
    rule_syscall.
  rewrite !pattern_rule_assign, !pattern_rule_keep.
  unfold final_priority, final_issues, gc_patterns, lock_patterns, json_patterns,
    sql_patterns, reflect_patterns, regex_patterns, syscall_patterns.
  cbv zeta. rewrite <- !app_assoc. reflexivity.
Qed.

(** X1: the classifier as a decision table.  The priority of a record is
    that of the last rule that assigns one: reflect above 3%, else sql
    above 5%, else json above 5%, else lock above 3%, else gc above 5%,
    else the two rules on the percentages.  Its issues are those of the
    rules that fire, in the order of the rules, and it has a finding
    exactly when some rule fires. *)
Theorem classifier_decision_table func :
  v_priority (classify func) = final_priority func /\
  v_issues (classify func) = final_issues func /\
  hotspot_of func =
    (if fires func
     then Some (Hotspot.Build (FunctionStat.name func)
                  (FunctionStat.flat_pct func) (FunctionStat.cum_pct func)
                  (final_priority func) (final_issues func))
     else None).
Proof.
  unfold hotspot_of. rewrite classify_closed_form. cbn [v_priority v_issues].
  split; [reflexivity|]. split; [reflexivity|].
  unfold final_issues, fires, issue_if. cbv zeta.
  destruct (PyFloat.gt (FunctionStat.flat_pct func) 10 ||
            PyFloat.gt (FunctionStat.flat_pct func) 5); [reflexivity|].
  destruct (PyFloat.gt (FunctionStat.cum_pct func) 20); [reflexivity|].
  destruct (any_in gc_patterns (FunctionStat.name func)); [reflexivity|].
  destruct (any_in lock_patterns (FunctionStat.name func)); [reflexivity|].
  destruct (any_in json_patterns (FunctionStat.name func)); [reflexivity|].
  destruct (any_in sql_patterns (FunctionStat.name func)); [reflexivity|].
  destruct (any_in reflect_patterns (FunctionStat.name func)); [reflexivity|].
  destruct (any_in regex_patterns (FunctionStat.name func)); [reflexivity|].
  destruct (any_in syscall_patterns (FunctionStat.name func)); reflexivity.
Qed.

(** X2: when a finding is HIGH.  A record ends HIGH exactly when the
    reflect rule does not assign (name without reflect, or [flat_pct]
    not above 3) and either the sql rule assigns, or the json rule does
    not and one of the lock rule, the gc rule and [flat_pct > 10] holds.
    In particular no record whose name holds reflect and whose
    [flat_pct] is above 3 is HIGH. *)
Theorem high_priority_iff func :
  v_priority (classify func) = "HIGH" <->
  (any_in reflect_patterns (FunctionStat.name func) &&
   PyFloat.gt (FunctionStat.flat_pct func) 3 = false) /\
  ((any_in sql_patterns (FunctionStat.name func) &&
    PyFloat.gt (FunctionStat.flat_pct func) 5 = true) \/
   (any_in json_patterns (FunctionStat.name func) &&
    PyFloat.gt (FunctionStat.flat_pct func) 5 = false) /\
   ((any_in lock_patterns (FunctionStat.name func) &&
     PyFloat.gt (FunctionStat.flat_pct func) 3 = true) \/
    (any_in gc_patterns (FunctionStat.name func) &&
     PyFloat.gt (FunctionStat.flat_pct func) 5 = true) \/
    PyFloat.gt (FunctionStat.flat_pct func) 10 = true)).
Proof.
  rewrite classify_closed_form. cbn [v_priority]. unfold final_priority. cbv zeta.
  destruct (any_in reflect_patterns (FunctionStat.name func) &&
            PyFloat.gt (FunctionStat.flat_pct func) 3);
    [split; [discriminate | intros [[=] _]]|].
  destruct (any_in sql_patterns (FunctionStat.name func) &&
            PyFloat.gt (FunctionStat.flat_pct func) 5);
    [split; auto|].
  destruct (any_in json_patterns (FunctionStat.name func) &&
            PyFloat.gt (FunctionStat.flat_pct func) 5);
    [split; [discriminate | intros [_ [[=] | [[=] _]]]]|].
  destruct (any_in lock_patterns (FunctionStat.name func) &&
            PyFloat.gt (FunctionStat.flat_pct func) 3);
    [split; auto 6|].
  destruct (any_in gc_patterns (FunctionStat.name func) &&
            PyFloat.gt (FunctionStat.flat_pct func) 5);
    [split; auto 6|].
  destruct (PyFloat.gt (FunctionStat.cum_pct func) 20);
    destruct (PyFloat.gt (FunctionStat.flat_pct func) 10);
    try destruct (PyFloat.gt (FunctionStat.flat_pct func) 5);
    (split; [try discriminate; auto 6
            | intros [_ [[=] | [_ [[=] | [[=] | H]]]]];
              try discriminate H; reflexivity]).
Qed.

(** ** Where the priority can fall *)

Lemma rank_le_high priority : (rank priority <= rank "HIGH")%nat.
Proof.
  unfold rank. destruct (String.eqb priority "HIGH"); cbn; [lia|].
  destruct (String.eqb priority "MEDIUM"); cbn; lia.
Qed.

Lemma rank_le_medium priority :
  String.eqb priority "HIGH" = false -> (rank priority <= rank "MEDIUM")%nat.
Proof.
  unfold rank. intros ->. destruct (String.eqb priority "MEDIUM"); cbn; lia.
Qed.

(** The rule on [cum_pct] never lowers a priority. *)
Lemma rule_cum_raises func v :
  (rank (v_priority v) <= rank (v_priority (rule_cum func v)))%nat.
Proof.
  unfold rule_cum. destruct (PyFloat.gt (FunctionStat.cum_pct func) 20); [|lia].
  cbn [v_priority]. destruct (String.eqb (v_priority v) "HIGH") eqn:Hhigh; cbn [negb].
  - lia.
  - apply rank_le_medium, Hhigh.
Qed.

(** A rule on the name that assigns HIGH, or nothing, never lowers a
    priority; one that assigns another priority does not when the name
    does not match. *)
Lemma pattern_rule_raises patterns text assign func v :
  match assign with
  | Some (_, assigned) =>
      assigned = "HIGH" \/ any_in patterns (FunctionStat.name func) = false
  | None => True
  end ->
  (rank (v_priority v) <=
   rank (v_priority (pattern_rule patterns text assign func v)))%nat.
Proof.
  intros Hassign. unfold pattern_rule.
  destruct (any_in patterns (FunctionStat.name func)); [|lia].
  destruct assign as [[threshold assigned]|]; [|cbn; lia].
  destruct (PyFloat.gt (FunctionStat.flat_pct func) threshold); [|cbn; lia].
  destruct Hassign as [-> | [=]]. apply rank_le_high.
Qed.

Lemma run_rules_snoc rs rule func v :
  run_rules (rs ++ [rule]) func v = rule func (run_rules rs func v).
Proof. unfold run_rules. rewrite fold_left_app. reflexivity. Qed.

Lemma priorities_along_lookup func i priority :
  priorities_along func !! i = Some priority ->
  (i < 10)%nat /\
  priority = v_priority (run_rules (take i rules) func (Verdict "LOW" [])).
Proof.
  unfold priorities_along.
  change (map ?f ?l) with (f <$> l). rewrite list_lookup_fmap.
  destruct (seq 0 (S (length rules)) !! i) as [n|] eqn:Hn; [|discriminate].
  apply lookup_seq in Hn as [-> Hlt]. cbn [fmap option_fmap option_map].
  intros [= <-]. split; [exact Hlt | reflexivity].
Qed.

(** X3: the rules are escalation-only but for two.  Along the run of
    the nine rules on a record, the priority after a rule is at least
    the priority before it, for every rule other than the json rule
    (the fifth) and the reflect rule (the seventh), and for these two
    as well when the name does not match their keywords. *)
Theorem priority_falls_only_at_json_and_reflect func i before after :
  priorities_along func !! i = Some before ->
  priorities_along func !! S i = Some after ->
  (i = 4%nat -> any_in json_patterns (FunctionStat.name func) = false) ->
  (i = 6%nat -> any_in reflect_patterns (FunctionStat.name func) = false) ->
  (rank before <= rank after)%nat.
Proof.
  intros Hbefore Hafter Hjson Hreflect.
  apply priorities_along_lookup in Hbefore as [_ ->].
  apply priorities_along_lookup in Hafter as [Hlt ->].
  destruct i as [|[|[|[|[|[|[|[|[|i]]]]]]]]]; [..|cbn in Hlt; lia].
  - cbn. lia.
  - change (take 2 rules) with (take 1 rules ++ [rule_cum]).
    rewrite run_rules_snoc. apply rule_cum_raises.
  - change (take 3 rules) with (take 2 rules ++ [rule_gc]).
    rewrite run_rules_snoc. apply pattern_rule_raises. left. reflexivity.
  - change (take 4 rules) with (take 3 rules ++ [rule_lock]).
    rewrite run_rules_snoc. apply pattern_rule_raises. left. reflexivity.
  - change (take 5 rules) with (take 4 rules ++ [rule_json]).
    rewrite run_rules_snoc. apply pattern_rule_raises. right.
    apply Hjson. reflexivity.
  - change (take 6 rules) with (take 5 rules ++ [rule_sql]).
    rewrite run_rules_snoc. apply pattern_rule_raises. left. reflexivity.
  - change (take 7 rules) with (take 6 rules ++ [rule_reflect]).
    rewrite run_rules_snoc. apply pattern_rule_raises. right.
    apply Hreflect. reflexivity.
  - change (take 8 rules) with (take 7 rules ++ [rule_regex]).
    rewrite run_rules_snoc. apply pattern_rule_raises. exact I.
  - change (take 9 rules) with (take 8 rules ++ [rule_syscall]).
    rewrite run_rules_snoc. apply pattern_rule_raises. exact I.
Qed.

(** A query of the database at 6%: MEDIUM before the sql rule, HIGH
    after it. *)
Lemma priority_falls_only_at_json_and_reflect_witness :
  (rank "MEDIUM" <= rank "HIGH")%nat.
Proof.
  apply (priority_falls_only_at_json_and_reflect
           (FunctionStat.Build "60ms" 6 "60ms" 6 "database/sql.(*DB).Query")
           5 "MEDIUM" "HIGH");
    [reflexivity | reflexivity | discriminate | discriminate].
Defined.

(** X4: the keywords are matched whatever the case of the letters.  Two
    records with the same percentages whose names are equal once
    lowered get the same priority and the same issues. *)
Theorem classifier_ignores_case func func' :
  FunctionStat.flat_pct func = FunctionStat.flat_pct func' ->
  FunctionStat.cum_pct func = FunctionStat.cum_pct func' ->
  PyStr.lower (FunctionStat.name func) = PyStr.lower (FunctionStat.name func') ->
  classify func = classify func'.
Proof.
  intros Hflat Hcum Hname. rewrite !classify_closed_form.
  unfold final_priority, final_issues, any_in. cbv zeta.
  rewrite Hflat, Hcum, Hname. reflexivity.
Qed.

Lemma classifier_ignores_case_witness :
  classify (FunctionStat.Build "50ms" 15 "80ms" 25 "runtime.GCBgMarkWorker") =
  classify (FunctionStat.Build "5s" 15 "8s" 25 "Runtime.gcbgMarkWorker").
Proof.
  apply classifier_ignores_case; reflexivity.
Defined.

(** ** The synthesizer in closed form *)

Lemma recommend_closed (groups : gmap string (list Hotspot.t)) hotspots
    recommendations a :
  groups !! a_key a = Some (contributing (a_key a) hotspots) ->
  recommend groups recommendations a =
    Ok (recommendations ++ recommendation_of hotspots a).
Proof.
  intros Hgroup. unfold recommend, group, recommendation_of. rewrite Hgroup.
  cbn [mbind result_bind]. destruct (contributing (a_key a) hotspots).
  - rewrite app_nil_r. reflexivity.
  - reflexivity.
Qed.

(** The synthesizer never raises, and its entries are those of the five
    blocks, in order. *)
Lemma generate_recommendations_closed hotspots :
  generate_recommendations hotspots =
    Ok (flat_map (recommendation_of hotspots) advices).
Proof.
  destruct (group_by_issue_contributing hotspots) as (groups & Hgroups & Hlookup).
  unfold generate_recommendations. rewrite Hgroups. cbn [mbind result_bind].
  unfold advices. cbn [for_each flat_map].
  rewrite (recommend_closed groups hotspots) by (apply Hlookup; cbn; auto 10).
  cbn [mbind result_bind].
  rewrite (recommend_closed groups hotspots) by (apply Hlookup; cbn; auto 10).
  cbn [mbind result_bind].
  rewrite (recommend_closed groups hotspots) by (apply Hlookup; cbn; auto 10).
  cbn [mbind result_bind].
  rewrite (recommend_closed groups hotspots) by (apply Hlookup; cbn; auto 10).
  cbn [mbind result_bind].
  rewrite (recommend_closed groups hotspots) by (apply Hlookup; cbn; auto 10).
  cbn [app]. rewrite app_nil_r, <- !app_assoc. reflexivity.
Qed.

Lemma recommendation_of_category hotspots a :
  sublist (map Recommendation.category (recommendation_of hotspots a))
    [a_category a].
Proof.
  unfold recommendation_of. destruct (contributing (a_key a) hotspots).
  - apply sublist_nil_l.
  - cbn. reflexivity.
Qed.

(** X5: the synthesizer in full.  It never raises; its entries are, for
    each of the five blocks in order whose group is not empty, the
    block's category and fixed suggestions with the priority of the sum
    of the group and the issue text made of the block's label, the sum
    with one decimal and "% CPU".  So the categories are a subsequence
    of the five names: at most five entries, none twice, and none for
    the regex and syscall groups. *)
Theorem recommendations_in_full hotspots :
  exists recommendations,
    generate_recommendations hotspots = Ok recommendations /\
    recommendations = flat_map (recommendation_of hotspots) advices /\
    sublist (map Recommendation.category recommendations)
      ["Memory Management"; "Concurrency"; "Serialization"; "Database";
       "Code Generation"] /\
    Forall (fun rec =>
              exists a total,
                In a advices /\
                Recommendation.category rec = a_category a /\
                Recommendation.suggestions rec = a_suggestions a /\
                Recommendation.priority rec = a_priority a total /\
                Recommendation.issue rec =
                  a_label a +:+ PyFloat.format_1f total +:+ "% CPU" /\
                total = total_flat (contributing (a_key a) hotspots))
      recommendations.
Proof.
  eexists. split; [apply generate_recommendations_closed|].
  split; [reflexivity|]. split.
  - unfold advices. cbn [flat_map]. rewrite !map_app, app_nil_r.
    change ["Memory Management"; "Concurrency"; "Serialization"; "Database";
            "Code Generation"]
      with ([a_category advice_gc] ++ [a_category advice_lock] ++
            [a_category advice_json] ++ [a_category advice_sql] ++
            [a_category advice_reflect]).
    repeat apply sublist_app; apply recommendation_of_category.
  - apply List.Forall_forall. intros rec Hrec.
    apply in_flat_map in Hrec as (a & Ha & Hrec).
    unfold recommendation_of in Hrec.
    destruct (contributing (a_key a) hotspots) eqn:Hgroup; [destruct Hrec|].
    destruct Hrec as [<- | []]. exists a. eexists. cbn.
    split; [exact Ha|]. do 4 (split; [reflexivity|]).
    rewrite Hgroup. reflexivity.
Qed.

Lemma contributing_flat key hotspots :
  map Hotspot.flat_pct (contributing key hotspots) =
  flat_map
    (fun fi : float * list string =>
       flat_map
         (fun issue => if decide (group_key issue = Some key) then [fi.1] else [])
         fi.2)
    (map flat_and_issues hotspots).
Proof.
  unfold contributing. induction hotspots as [|hotspot hotspots IH]; [reflexivity|].
  cbn [flat_map map]. rewrite map_app, IH. f_equal.
  unfold mentions, flat_and_issues. cbn [fst snd].
  induction (Hotspot.issues hotspot) as [|issue issues IHi]; [reflexivity|].
  cbn [flat_map]. rewrite map_app, IHi. f_equal.
  destruct (decide (group_key issue = Some key)); reflexivity.
Qed.

(** X6: the synthesizer reads the issues and [flat_pct] of the findings
    and nothing else: two sequences of findings that agree on these,
    whatever the priorities, the names and [cum_pct], get the same
    recommendations. *)
Theorem recommendations_ignore_priority hotspots hotspots' :
  map flat_and_issues hotspots = map flat_and_issues hotspots' ->
  generate_recommendations hotspots = generate_recommendations hotspots'.
Proof.
  intros Hsame. rewrite !generate_recommendations_closed. f_equal.
  assert (forall a, recommendation_of hotspots a = recommendation_of hotspots' a)
    as Hrec.
  { intros a. unfold recommendation_of, total_flat.
    pose proof (contributing_flat (a_key a) hotspots) as H.
    pose proof (contributing_flat (a_key a) hotspots') as H'.
    rewrite Hsame in H. rewrite <- H' in H. rewrite H.
    destruct (contributing (a_key a) hotspots);
      destruct (contributing (a_key a) hotspots'); try discriminate H; reflexivity. }
  unfold advices. cbn [flat_map]. rewrite !Hrec. reflexivity.
Qed.

(** A HIGH finding and a LOW one of another function, with the same
    issue and [flat_pct]. *)
Lemma recommendations_ignore_priority_witness :
  generate_recommendations
    [Hotspot.Build "runtime.gcDrain" 6 6 "HIGH" ["Garbage collection overhead"]] =
  generate_recommendations
    [Hotspot.Build "runtime.sweepone" 6 90 "LOW" ["Garbage collection overhead"]].
Proof.
  apply recommendations_ignore_priority. reflexivity.
Defined.

(** ** The issue texts and their groups *)

Lemma all_chars_app p a b :
  all_chars p (a +:+ b) = all_chars p a && all_chars p b.
Proof.
  induction a as [|c a IH]; [reflexivity|].
  rewrite string_app_cons. cbn [all_chars]. rewrite IH, andb_assoc. reflexivity.
Qed.

Lemma all_chars_impl (p q : ascii -> bool) s :
  (forall c, p c = true -> q c = true) ->
  all_chars p s = true -> all_chars q s = true.
Proof.
  intros Hpq. induction s as [|c s IH]; [reflexivity|].
  cbn [all_chars]. rewrite !andb_true_iff. intros [Hc Hs]. auto.
Qed.

Lemma prefix_all_chars p needle hay :
  String.prefix needle hay = true ->
  all_chars p hay = true -> all_chars p needle = true.
Proof.
  revert hay. induction needle as [|a needle IH]; intros hay; [reflexivity|].
  destruct hay as [|b hay]; [discriminate|]. cbn [String.prefix all_chars].
  destruct (ascii_dec a b) as [->|]; [|discriminate].
  rewrite !andb_true_iff. intros Hprefix [Hb Hhay]. split; [exact Hb|].
  exact (IH hay Hprefix Hhay).
Qed.

(** A text found in another is made of characters of the other. *)
Lemma contains_all_chars p needle hay :
  PyStr.contains needle hay = true ->
  all_chars p hay = true -> all_chars p needle = true.
Proof.
  induction hay as [|b hay IH].
  - destruct needle; [reflexivity | discriminate].
  - cbn [PyStr.contains]. rewrite orb_true_iff. intros [Hprefix | Hlater] Hall.
    + exact (prefix_all_chars p _ _ Hprefix Hall).
    + cbn [all_chars] in Hall. apply andb_true_iff in Hall as [_ Hhay]. auto.
Qed.

Lemma contains_absent p needle hay :
  all_chars p hay = true -> all_chars p needle = false ->
  PyStr.contains needle hay = false.
Proof.
  intros Hhay Hneedle. destruct (PyStr.contains needle hay) eqn:Hin; [|reflexivity].
  rewrite (contains_all_chars p _ _ Hin Hhay) in Hneedle. discriminate.
Qed.

Lemma lower_app a b : PyStr.lower (a +:+ b) = PyStr.lower a +:+ PyStr.lower b.
Proof.
  induction a as [|c a IH]; [reflexivity|].
  rewrite string_app_cons. cbn [PyStr.lower]. rewrite IH. reflexivity.
Qed.

Lemma occurs_lower_fixed c :
  occurs c "0123456789.-" = true -> PyStr.lower_char c = c.
Proof.
  cbn [occurs]. intros H.
  repeat (apply orb_prop in H as [H|H];
          [apply Ascii.eqb_eq in H; subst; reflexivity|]).
  discriminate H.
Qed.

Lemma lower_number s :
  all_chars (fun c => occurs c "0123456789.-") s = true -> PyStr.lower s = s.
Proof.
  induction s as [|c s IH]; [reflexivity|].
  cbn [all_chars PyStr.lower]. intros H. apply andb_true_iff in H as [Hc Hs].
  rewrite (occurs_lower_fixed c Hc), (IH Hs). reflexivity.
Qed.

Lemma pretty_N_char_digit n :
  occurs (pretty_N_char n) "0123456789.-" = true.
Proof. unfold pretty_N_char. repeat case_match; reflexivity. Qed.

Lemma pretty_N_go_digits x s :
  all_chars (fun c => occurs c "0123456789.-") s = true ->
  all_chars (fun c => occurs c "0123456789.-") (pretty_N_go x s) = true.
Proof.
  revert s. induction (N.lt_wf_0 x) as [x _ IH]. intros s Hs.
  destruct (decide (x = 0)%N) as [->|Hx]; [rewrite pretty_N_go_0; exact Hs|].
  rewrite pretty_N_go_step by lia. apply IH.
  - apply N.div_lt; lia.
  - cbn [all_chars]. rewrite Hs, pretty_N_char_digit. reflexivity.
Qed.

(** The decimal digits of a number that is not negative. *)
Lemma pretty_Z_digits z :
  0 <= z -> all_chars (fun c => occurs c "0123456789.-") (pretty z) = true.
Proof.
  destruct z as [|p|p]; intros Hz; [reflexivity | | lia].
  unfold pretty, pretty_Z, pretty, pretty_positive, pretty, pretty_N.
  destruct (decide (N.pos p = 0%N)); [reflexivity|].
  apply pretty_N_go_digits. reflexivity.
Qed.

Lemma tenths_nonneg m e : 0 <= PyFloat.tenths m e.
Proof.
  unfold PyFloat.tenths. destruct (0 <=? e) eqn:He.
  - apply Z.leb_le in He. pose proof (Z.pow_nonneg 2 e). nia.
  - assert (0 <= 10 * Z.pos m / 2 ^ (- e)) as Hq.
    { apply Z.div_pos; [lia|]. apply Z.pow_pos_nonneg; [lia|].
      apply Z.leb_gt in He. lia. }
    cbv zeta. destruct (2 * (10 * Z.pos m mod 2 ^ (- e)) ?= 2 ^ (- e)); [|lia|lia].
    destruct (Z.even (10 * Z.pos m / 2 ^ (- e))); lia.
Qed.

(** A finite number with one decimal is written with digits, a point
    and at most a sign. *)
Lemma format_finite_chars (s : bool) m e :
  all_chars (fun c => occurs c "0123456789.-")
    ((if s then "-" else "") +:+ pretty (PyFloat.tenths m e / 10) +:+ "." +:+
     pretty (PyFloat.tenths m e mod 10)) = true.
Proof.
  pose proof (tenths_nonneg m e) as Ht.
  rewrite !all_chars_app.
  rewrite (pretty_Z_digits (PyFloat.tenths m e / 10))
    by (apply Z.div_pos; lia).
  rewrite (pretty_Z_digits (PyFloat.tenths m e mod 10))
    by (apply Z.mod_pos_bound; lia).
  destruct s; reflexivity.
Qed.

(** An issue text made of a number between two fixed texts goes to no
    group when the letters of the fixed texts allow none of the
    keywords of the chain. *)
Lemma group_key_number (before after alphabet : string) x :
  (forall s, In s ["nan"; "inf"; "-inf"; "0.0"; "-0.0"] ->
             group_key (before +:+ s +:+ after) = None) ->
  all_chars (fun c => occurs c alphabet)
    (PyStr.lower before +:+ "0123456789.-" +:+ PyStr.lower after) = true ->
  Forall (fun keyword => all_chars (fun c => occurs c alphabet) keyword = false)
    ["garbage collection"; "synchronization"; "locking"; "json"; "database";
     "reflection"; "regular expression"; "system call"] ->
  group_key (before +:+ PyFloat.format_1f x +:+ after) = None.
Proof.
  intros Hspecial Halphabet Hkeywords. unfold PyFloat.format_1f.
  destruct (Prim2SF x) as [[]|[]| |s m e];
    try solve [apply Hspecial; cbn; auto 10].
  set (number := (if s then "-" else "") +:+ _).
  assert (all_chars (fun c => occurs c "0123456789.-") number = true) as Hnumber
    by apply format_finite_chars.
  assert (all_chars (fun c => occurs c alphabet)
            (PyStr.lower (before +:+ number +:+ after)) = true) as Hall.
  { rewrite !lower_app, (lower_number _ Hnumber).
    rewrite !all_chars_app in Halphabet |- *.
    apply andb_true_iff in Halphabet as [Hb Halphabet].
    apply andb_true_iff in Halphabet as [Hd Ha].
    rewrite Hb, Ha, andb_true_r. cbn [andb].
    revert Hnumber. apply all_chars_impl. intros c Hc.
    clear -Hc Hd. cbn [occurs] in Hc. cbn [all_chars] in Hd.
    repeat (apply andb_true_iff in Hd as [?H Hd]).
    repeat (apply orb_prop in Hc as [Hc|Hc];
            [apply Ascii.eqb_eq in Hc; subst; assumption|]).
    discriminate Hc. }
  unfold group_key. cbv zeta.
  repeat (apply Forall_cons in Hkeywords as [?Hk Hkeywords]).
  rewrite !(contains_absent (fun c => occurs c alphabet)) by assumption.
  reflexivity.
Qed.

Lemma group_key_consumes x :
  group_key ("Consumes " +:+ PyFloat.format_1f x +:+ "% CPU directly") = None.
Proof.
  apply (group_key_number "Consumes " "% CPU directly"
           "consume %pdirtly0123456789.-").
  - intros s Hs. cbn in Hs.
    repeat (destruct Hs as [<-|Hs]; [vm_compute; reflexivity|]). destruct Hs.
  - vm_compute. reflexivity.
  - repeat constructor.
Qed.

Lemma group_key_call_tree x :
  group_key ("Call tree consumes " +:+ PyFloat.format_1f x +:+ "% total CPU") = None.
Proof.
  apply (group_key_number "Call tree consumes " "% total CPU"
           "cal trensum%op0123456789.-").
  - intros s Hs. cbn in Hs.
    repeat (destruct Hs as [<-|Hs]; [vm_compute; reflexivity|]). destruct Hs.
  - vm_compute. reflexivity.
  - repeat constructor.
Qed.

Lemma if_nil {A} (b : bool) : (if b then @nil A else []) = [].
Proof. destruct b; reflexivity. Qed.

Lemma flat_map_issue_if {A} (f : string -> list A) test text :
  flat_map f (issue_if test text) = if test then f text else [].
Proof. destruct test; cbn; [apply app_nil_r | reflexivity]. Qed.

(** A finding with the issues of the classifier contributes to a group
    once when its name has a keyword of the group, and not at all
    otherwise: the two texts with a number go to no group, and each of
    the seven fixed texts goes to the group of its rule. *)
Lemma mentions_classified key func hotspot :
  Hotspot.issues hotspot = final_issues func ->
  mentions key hotspot =
  if any_in (key_patterns key) (FunctionStat.name func) then [hotspot] else [].
Proof.
  intros Hissues. unfold mentions. rewrite Hissues. unfold final_issues.
  cbv zeta. rewrite !flat_map_app, !flat_map_issue_if.
  rewrite group_key_consumes, group_key_call_tree.
  change (group_key "Garbage collection overhead") with (Some "gc").
  change (group_key "Synchronization/locking detected") with (Some "lock").
  change (group_key "JSON serialization overhead") with (Some "json").
  change (group_key "Database query overhead") with (Some "sql").
  change (group_key "Reflection usage (slow)") with (Some "reflect").
  change (group_key "Regular expression overhead") with (Some "regex").
  change (group_key "System call overhead") with (Some "syscall").
  unfold key_patterns.
  repeat match goal with
         | |- context [String.eqb key ?k] =>
             destruct (String.eqb_spec key k) as [->|?]
         end;
    repeat match goal with
           | |- context [decide (?a = ?b)] =>
               first [ rewrite (decide_True (P := a = b)) by reflexivity
                     | rewrite (decide_False (P := a = b)) by congruence ]
           end;
    rewrite ?if_nil; cbn [app]; rewrite ?app_nil_r; reflexivity.
Qed.

Lemma hotspot_of_issues func hotspot :
  hotspot_of func = Some hotspot ->
  Hotspot.function hotspot = FunctionStat.name func /\
  Hotspot.issues hotspot = final_issues func.
Proof.
  unfold hotspot_of. rewrite classify_closed_form. cbn [v_issues v_priority].
  destruct (final_issues func) eqn:Hissues; [discriminate|].
  intros [= <-]. split; reflexivity.
Qed.

Lemma contributing_classified key functions :
  contributing key (identify_hotspots functions) =
  List.filter (fun hotspot => any_in (key_patterns key) (Hotspot.function hotspot))
    (identify_hotspots functions).
Proof.
  rewrite identify_hotspots_omap. unfold contributing.
  induction functions as [|func functions IH]; [reflexivity|].
  rewrite omap_cons_eq. destruct (hotspot_of func) as [hotspot|] eqn:Hfunc;
    [|exact IH].
  destruct (hotspot_of_issues _ _ Hfunc) as [Hname Hissues].
  cbn [flat_map List.filter]. rewrite IH, (mentions_classified key func hotspot Hissues).
  rewrite Hname. destruct (any_in _ _); reflexivity.
Qed.

(** X7. On the findings of the classifier the grouping by issue text is
    a grouping by function name: it never raises, and the group of each
    key holds exactly the findings whose name has a keyword of the rule
    behind the key, each once and in the order of the findings. *)
Theorem classified_findings_grouped_by_name functions :
  exists groups : gmap string (list Hotspot.t),
    group_by_issue (identify_hotspots functions) = Ok groups /\
    forall key, In key group_keys ->
      groups !! key =
      Some (List.filter
              (fun hotspot => any_in (key_patterns key) (Hotspot.function hotspot))
              (identify_hotspots functions)).
Proof.
  destruct (group_by_issue_contributing (identify_hotspots functions))
    as (groups & Hgroups & Hlookup).
  exists groups. split; [exact Hgroups|]. intros key Hkey.
  rewrite (Hlookup key Hkey), contributing_classified. reflexivity.
Qed.

(** ** From the names to the recommendations *)

(** A record whose name has a keyword of a group has an issue. *)
Lemma keyword_gives_issue key func :
  any_in (key_patterns key) (FunctionStat.name func) = true ->
  final_issues func <> [].
Proof.
  intros Hkey Hnone.
  pose proof (mentions_classified key func
                (Hotspot.Build "" 0 0 "" (final_issues func)) eq_refl) as H.
  rewrite Hkey in H. unfold mentions in H. cbn [Hotspot.issues] in H.
  rewrite Hnone in H. discriminate H.
Qed.

(** The group of a key has a finding exactly when some record has a name
    with a keyword of the key. *)
Lemma contributing_nonempty key functions :
  contributing key (identify_hotspots functions) <> [] <->
  Exists (fun func => any_in (key_patterns key) (FunctionStat.name func) = true)
    functions.
Proof.
  rewrite contributing_classified, identify_hotspots_omap, List.Exists_exists.
  split.
  - intros Hsome.
    destruct (List.filter _ _) as [|hotspot rest] eqn:Hfilter; [congruence|].
    assert (In hotspot (List.filter
              (fun hotspot => any_in (key_patterns key) (Hotspot.function hotspot))
              (omap hotspot_of functions))) as Hin
      by (rewrite Hfilter; left; reflexivity).
    apply List.filter_In in Hin as [Hin Hkey].
    apply list_elem_of_In, list_elem_of_omap in Hin as (func & Hfunc & Hof).
    exists func. split; [apply list_elem_of_In, Hfunc|].
    destruct (hotspot_of_issues _ _ Hof) as [<- _]. exact Hkey.
  - intros (func & Hfunc & Hkey) Hnone.
    pose proof (keyword_gives_issue key func Hkey) as Hissue.
    destruct (hotspot_of func) as [hotspot|] eqn:Hof.
    + destruct (hotspot_of_issues _ _ Hof) as [Hname _].
      assert (In hotspot (List.filter
                (fun hotspot => any_in (key_patterns key) (Hotspot.function hotspot))
                (omap hotspot_of functions))) as Hin.
      { apply List.filter_In. split; [|rewrite Hname; exact Hkey].
        apply list_elem_of_In, list_elem_of_omap. exists func.
        split; [apply list_elem_of_In, Hfunc | exact Hof]. }
      rewrite Hnone in Hin. destruct Hin.
    + unfold hotspot_of in Hof. rewrite classify_closed_form in Hof.
      cbn [v_issues] in Hof. destruct (final_issues func); [congruence | discriminate].
Qed.

Lemma recommendation_of_In hotspots a category :
  In category (map Recommendation.category (recommendation_of hotspots a)) <->
  category = a_category a /\ contributing (a_key a) hotspots <> [].
Proof.
  unfold recommendation_of. destruct (contributing (a_key a) hotspots).
  - cbn. split; [tauto | intros [_ H]; congruence].
  - cbn. split; [intros [<-|[]]; split; [reflexivity | discriminate] | intros [-> _]; auto].
Qed.

(** X8. Which categories the script advises is decided by the names of
    the parsed functions alone, whatever their percentages: the
    recommendations of the findings of the classifier have an entry of a
    category exactly when some record has a name with one of the
    keywords of the rule behind it; and there is no other category. *)
Theorem categories_follow_names functions :
  exists recommendations,
    generate_recommendations (identify_hotspots functions) = Ok recommendations /\
    (advised recommendations "Memory Management" <->
       named functions ["gc"; "garbage"; "sweep"]) /\
    (advised recommendations "Concurrency" <->
       named functions ["lock"; "mutex"; "sync"]) /\
    (advised recommendations "Serialization" <->
       named functions ["json"; "marshal"; "unmarshal"]) /\
    (advised recommendations "Database" <->
       named functions ["sql"; "query"; "exec"]) /\
    (advised recommendations "Code Generation" <->
       named functions ["reflect"]) /\
    (forall category, advised recommendations category ->
       In category ["Memory Management"; "Concurrency"; "Serialization";
                    "Database"; "Code Generation"]).
Proof.
  eexists. split; [apply generate_recommendations_closed|].
  unfold advised, named, advices. cbn [flat_map]. rewrite app_nil_r, !map_app.
  assert (forall a category,
            In a advices -> category = a_category a ->
            (In category
               (map Recommendation.category
                  (recommendation_of (identify_hotspots functions) advice_gc) ++
                map Recommendation.category
                  (recommendation_of (identify_hotspots functions) advice_lock) ++
                map Recommendation.category
                  (recommendation_of (identify_hotspots functions) advice_json) ++
                map Recommendation.category
                  (recommendation_of (identify_hotspots functions) advice_sql) ++
                map Recommendation.category
                  (recommendation_of (identify_hotspots functions) advice_reflect)) <->
             Exists (fun func =>
                       any_in (key_patterns (a_key a)) (FunctionStat.name func) = true)
               functions)) as Hiff.
  { intros a category Ha ->. rewrite <- contributing_nonempty.
    rewrite !in_app_iff, !recommendation_of_In.
    cbn in Ha. destruct Ha as [<-|[<-|[<-|[<-|[<-|[]]]]]];
      cbn [a_key a_category advice_gc advice_lock advice_json advice_sql
           advice_reflect];
      intuition congruence. }
  split; [apply (Hiff advice_gc); [cbn; auto 10 | reflexivity]|].
  split; [apply (Hiff advice_lock); [cbn; auto 10 | reflexivity]|].
  split; [apply (Hiff advice_json); [cbn; auto 10 | reflexivity]|].
  split; [apply (Hiff advice_sql); [cbn; auto 10 | reflexivity]|].
  split; [apply (Hiff advice_reflect); [cbn; auto 10 | reflexivity]|].
  intros category H. rewrite !in_app_iff, !recommendation_of_In in H. cbn.
  destruct H as [[-> _]|[[-> _]|[[-> _]|[[-> _]|[-> _]]]]]; auto 10.
Qed.

(** ** main *)

Lemma is_empty_spec s : PyStr.is_empty s = true <-> s = "".
Proof. destruct s; cbn; split; congruence. Qed.

(** What [analyze] returns, on a text that is not empty. *)
Lemma analyze_report self now top_output :
  top_output <> "" ->
  exists functions recs report summary,
    parse_top_output top_output = Ok functions /\
    generate_recommendations (identify_hotspots functions) = Ok recs /\
    generate_report
      (Build_Analyzer (profile_path self) (profile_name self)
         (identify_hotspots functions) recs) now = Ok report /\
    analyze self now top_output =
      Ok (Some (Build_Analyzer (profile_path self) (profile_name self)
                  (identify_hotspots functions) recs, report, summary)).
Proof.
  intros Hsome. destruct (analyze_total self now top_output) as [out Hout].
  unfold analyze in Hout |- *.
  destruct (PyStr.is_empty top_output) eqn:Hempty;
    [apply is_empty_spec in Hempty; congruence|].
  destruct (parse_top_output top_output) as [functions|] eqn:Hparse;
    [|discriminate].
  cbn [mbind result_bind] in Hout |- *.
  destruct (generate_recommendations (identify_hotspots functions))
    as [recs|] eqn:Hrecs; [|discriminate].
  cbn [mbind result_bind] in Hout |- *.
  destruct (generate_report _ now) as [report|] eqn:Hreport; [|discriminate].
  cbn [mbind result_bind] in Hout |- *.
  destruct (print_summary _) as [summary|]; [|discriminate].
  exists functions, recs, report, summary.
  split; [reflexivity|]. split; [exact Hrecs|]. split; [exact Hreport|].
  reflexivity.
Qed.

(** X9. How the script ends.  [main] never ends in one of the modelled
    exceptions, and its exit status is 0 or 1.  It is 0 exactly when
    there is a first argument, the path it names exists, the pprof tool
    ran and printed something, and the report file could be written;
    exactly then a report is written.  The file is beside the profile,
    named by the stem of the profile's name followed by [_analysis.md],
    and holds the report of the findings and recommendations of what
    the tool printed, at the time of the clock. *)
Theorem main_exit_status env argv :
  exists out,
    main env argv = Ok out /\
    (exit_status out = 0%nat \/ exit_status out = 1%nat) /\
    (exit_status out = 0%nat <-> is_Some (report_file out)) /\
    (exit_status out = 0%nat <->
     exists path stdout,
       argv !! 1%nat = Some path /\
       path_exists env path = true /\
       pprof_top env path = Some stdout /\ stdout <> "" /\
       can_write env
         (PyPath.sibling path (PyPath.stem path +:+ "_analysis.md")) = true) /\
    (forall path stdout,
       exit_status out = 0%nat ->
       argv !! 1%nat = Some path -> pprof_top env path = Some stdout ->
       exists functions recs report,
         parse_top_output stdout = Ok functions /\
         generate_recommendations (identify_hotspots functions) = Ok recs /\
         generate_report
           (Build_Analyzer path (PyPath.stem path) (identify_hotspots functions)
              recs) (clock env) = Ok report /\
         report_file out =
           Some (PyPath.sibling path (PyPath.stem path +:+ "_analysis.md"),
                 report)).
Proof.
  set (succeeds := exists path stdout,
         argv !! 1%nat = Some path /\
         path_exists env path = true /\
         pprof_top env path = Some stdout /\ stdout <> "" /\
         can_write env
           (PyPath.sibling path (PyPath.stem path +:+ "_analysis.md")) = true).
  assert (forall run, run = Ok (Outcome 1 None) -> ~ succeeds ->
            exists out,
              run = Ok out /\
              (exit_status out = 0%nat \/ exit_status out = 1%nat) /\
              (exit_status out = 0%nat <-> is_Some (report_file out)) /\
              (exit_status out = 0%nat <-> succeeds) /\
              (forall path stdout,
                 exit_status out = 0%nat ->
                 argv !! 1%nat = Some path -> pprof_top env path = Some stdout ->
                 exists functions recs report,
                   parse_top_output stdout = Ok functions /\
                   generate_recommendations (identify_hotspots functions) =
                     Ok recs /\
                   generate_report
                     (Build_Analyzer path (PyPath.stem path)
                        (identify_hotspots functions) recs) (clock env) =
                     Ok report /\
                   report_file out =
                     Some (PyPath.sibling path
                             (PyPath.stem path +:+ "_analysis.md"), report)))
    as Hfail.
  { intros run -> Hnot. exists (Outcome 1 None). split; [reflexivity|].
    cbn [exit_status report_file]. split; [auto|].
    split; [split; [discriminate | intros [? ?]; discriminate]|].
    split; [split; [discriminate | intros H; destruct (Hnot H)]|].
    intros ? ? ?. discriminate. }
  unfold main. destruct (length argv <? 2)%nat eqn:Hlen.
  { apply Nat.ltb_lt in Hlen. apply Hfail; [reflexivity|].
    intros (path & stdout & Harg & _). apply lookup_lt_Some in Harg. lia. }
  apply Nat.ltb_ge in Hlen.
  destruct (lookup_lt_is_Some_2 argv 1%nat ltac:(lia)) as [path Hpath].
  assert (index argv 1 = Ok path) as ->
    by (unfold index; rewrite Hpath; reflexivity).
  cbn [mbind result_bind].
  destruct (path_exists env path) eqn:Hexists; cbn [negb].
  2:{ apply Hfail; [reflexivity|].
      intros (path' & stdout & Harg & Hex & _). congruence. }
  unfold run_pprof_top, init. cbn [profile_path].
  destruct (pprof_top env path) as [stdout|] eqn:Hstdout.
  2:{ apply Hfail; [reflexivity|].
      intros (path' & stdout & Harg & _ & Hout & _). congruence. }
  destruct (decide (stdout = "")) as [->|Hsome].
  { apply Hfail; [reflexivity|].
    intros (path' & stdout & Harg & _ & Hout & Hne & _). congruence. }
  destruct (analyze_report (Build_Analyzer path (PyPath.stem path) [] [])
              (clock env) stdout Hsome)
    as (functions & recs & report & summary & Hparse & Hrecs & Hreport & ->).
  cbn [profile_path profile_name] in Hreport |- *. cbn [mbind result_bind].
  unfold output_path. cbn [profile_path profile_name].
  destruct (can_write env _) eqn:Hwrite.
  - eexists. split; [reflexivity|]. cbn [exit_status report_file].
    split; [auto|]. split; [split; [eexists; reflexivity | reflexivity]|].
    split.
    + split; [|reflexivity]. intros _. exists path, stdout. auto 10.
    + intros path' stdout' _ Harg Hout.
      assert (path' = path) as -> by congruence.
      assert (stdout' = stdout) as -> by congruence.
      exists functions, recs, report. auto.
  - apply Hfail; [reflexivity|].
    intros (path' & stdout' & Harg & _ & Hout & _ & Hcan).
    assert (path' = path) as -> by congruence. congruence.
Qed.

(** ** Where the report is written *)

Lemma split_on_free c s : occurs c s = false -> PyStr.split_on c s = [s].
Proof.
  induction s as [|a s IH]; [reflexivity|]. cbn [occurs PyStr.split_on].
  intros H. apply orb_false_iff in H as [Ha Hs].
  rewrite Ascii.eqb_sym, Ha, (IH Hs). reflexivity.
Qed.

Lemma split_on_app c s rest :
  occurs c s = false ->
  PyStr.split_on c (s +:+ String c rest) = s :: PyStr.split_on c rest.
Proof.
  induction s as [|a s IH]; intros H.
  - change ("" +:+ String c rest) with (String c rest).
    cbn [PyStr.split_on]. rewrite Ascii.eqb_refl. reflexivity.
  - cbn [occurs] in H. apply orb_false_iff in H as [Ha Hs].
    rewrite string_app_cons. cbn [PyStr.split_on].
    rewrite Ascii.eqb_sym, Ha, (IH Hs). reflexivity.
Qed.

(** Splitting the join of pieces without the separator gives the pieces
    back. *)
Lemma split_on_join c pieces :
  pieces <> [] -> Forall (fun s => occurs c s = false) pieces ->
  PyStr.split_on c (PyStr.join (String c "") pieces) = pieces.
Proof.
  induction pieces as [|piece pieces IH]; [congruence|].
  intros _ Hall. inversion Hall as [|? ? Hpiece Hrest]; subst.
  destruct pieces as [|piece' pieces].
  - cbn. apply split_on_free, Hpiece.
  - change (PyStr.join (String c "") (piece :: piece' :: pieces))
      with (piece +:+ String c ("" +:+ PyStr.join (String c "") (piece' :: pieces))).
    rewrite split_on_app by exact Hpiece.
    f_equal. apply IH; [congruence | exact Hrest].
Qed.

Lemma rfind_dot_none s : occurs "." s = false -> PyPath.rfind_dot s = None.
Proof.
  induction s as [|a s IH]; [reflexivity|]. cbn [occurs PyPath.rfind_dot].
  intros H. apply orb_false_iff in H as [Ha Hs].
  rewrite (IH Hs), Ascii.eqb_sym, Ha. reflexivity.
Qed.

Lemma rfind_dot_app s i rest :
  PyPath.rfind_dot rest = Some i ->
  PyPath.rfind_dot (s +:+ rest) = Some (String.length s + i)%nat.
Proof.
  intros Hrest. induction s as [|a s IH]; [exact Hrest|].
  rewrite string_app_cons. cbn [PyPath.rfind_dot String.length]. rewrite IH.
  reflexivity.
Qed.

Lemma substring_app s rest : String.substring 0 (String.length s) (s +:+ rest) = s.
Proof.
  induction s as [|a s IH].
  - destruct rest; reflexivity.
  - rewrite string_app_cons. cbn [String.length String.substring].
    rewrite IH. reflexivity.
Qed.

Lemma length_app (a b : string) :
  String.length (a +:+ b) = (String.length a + String.length b)%nat.
Proof.
  induction a as [|x a IH]; [reflexivity|].
  rewrite string_app_cons. cbn [String.length]. rewrite IH. reflexivity.
Qed.

(** The stem of a name with a last suffix. *)
Lemma stem_of_suffixed base ext :
  base <> "" -> ext <> "" -> occurs "." ext = false ->
  PyPath.stem_of (base +:+ "." +:+ ext) = base.
Proof.
  intros Hbase Hext Hdot. unfold PyPath.stem_of.
  rewrite (rfind_dot_app base 0 ("." +:+ ext)).
  2:{ change ("." +:+ ext) with (String "." ext). cbn [PyPath.rfind_dot].
      rewrite (rfind_dot_none ext Hdot). reflexivity. }
  rewrite Nat.add_0_r, length_app.
  change ("." +:+ ext) with (String "." ext). cbn [String.length].
  assert (0 < String.length base)%nat as Hb by (destruct base; [congruence | cbn; lia]).
  assert (0 < String.length ext)%nat as He by (destruct ext; [congruence | cbn; lia]).
  destruct (Nat.ltb_spec 0 (String.length base)) as [_|]; [|lia].
  destruct (Nat.ltb_spec (String.length base)
              (String.length base + S (String.length ext) - 1)) as [_|]; [|lia].
  cbn [andb]. apply substring_app.
Qed.

Lemma occurs_app c a b : occurs c (a +:+ b) = occurs c a || occurs c b.
Proof.
  induction a as [|x a IH]; [reflexivity|].
  rewrite string_app_cons. cbn [occurs]. rewrite IH, orb_assoc. reflexivity.
Qed.

(** The components of a path given by its pieces between the slashes. *)
Lemma parts_join dirs file :
  Forall (fun piece => occurs "/" piece = false) dirs ->
  occurs "/" file = false -> kept file = true ->
  PyPath.parts (PyStr.join "/" (dirs ++ [file])) = List.filter kept dirs ++ [file].
Proof.
  intros Hdirs Hfile Hkept. unfold PyPath.parts.
  rewrite split_on_join.
  - rewrite List.filter_app. fold kept. cbn [List.filter]. rewrite Hkept.
    reflexivity.
  - destruct dirs; discriminate.
  - apply Forall_app. split; [exact Hdirs|]. constructor; [exact Hfile | constructor].
Qed.

(** X10. Where the report goes, and under which name.  For the profile
    path made of the pieces [dirs] and of a file name [base.ext], joined
    by slashes, the analyzer's [profile_name] is [base], the name
    without its last suffix only, and the report is written in the
    directory of the profile to the file [base_analysis.md]: the root of
    the path, its directories without the empty ones and [.], and that
    name. *)
Theorem report_beside_profile dirs base ext :
  Forall (fun piece => occurs "/" piece = false) dirs ->
  occurs "/" base = false -> occurs "/" ext = false ->
  occurs "." ext = false -> base <> "" -> ext <> "" ->
  profile_name (init (PyStr.join "/" (dirs ++ [base +:+ "." +:+ ext]))) = base /\
  output_path (init (PyStr.join "/" (dirs ++ [base +:+ "." +:+ ext]))) =
    PyPath.root (PyStr.join "/" (dirs ++ [base +:+ "." +:+ ext])) +:+
    PyStr.join "/" (List.filter kept dirs ++ [base +:+ "_analysis.md"]).
Proof.
  intros Hdirs Hbase Hext Hdot Hb He.
  assert (occurs "/" (base +:+ "." +:+ ext) = false) as Hfile.
  { rewrite !occurs_app, Hbase, Hext. reflexivity. }
  assert (kept (base +:+ "." +:+ ext) = true) as Hkept.
  { unfold kept. destruct base as [|a base]; [congruence|].
    rewrite string_app_cons. cbn [PyStr.is_empty negb andb].
    apply negb_true_iff, String.eqb_neq.
    destruct base as [|b base]; [|rewrite string_app_cons; congruence].
    destruct ext as [|c ext]; [congruence|].
    change ("" +:+ "." +:+ String c ext) with (String "." (String c ext)).
    congruence. }
  assert (PyPath.stem (PyStr.join "/" (dirs ++ [base +:+ "." +:+ ext])) = base)
    as Hstem.
  { unfold PyPath.stem, PyPath.name.
    rewrite (parts_join dirs _ Hdirs Hfile Hkept), last_last.
    apply stem_of_suffixed; assumption. }
  unfold output_path, init. cbn [profile_name profile_path].
  split; [exact Hstem|]. rewrite Hstem. unfold PyPath.sibling.
  rewrite (parts_join dirs _ Hdirs Hfile Hkept), removelast_last. reflexivity.
Qed.

Lemma report_beside_profile_witness :
  profile_name (init "/tmp/./profiles//cpu.pb.gz") = "cpu.pb" /\
  output_path (init "/tmp/./profiles//cpu.pb.gz") =
    "/tmp/profiles/cpu.pb_analysis.md".
Proof.
  apply (report_beside_profile [""; "tmp"; "."; "profiles"; ""] "cpu.pb" "gz");
    first [ discriminate | reflexivity | repeat constructor ].
Defined.

(** ** More on the parser *)

(** X11. What comes before the header is never read: with lines
    [preamble] of which none has both "flat" and "cum", then a line that
    has them, the records are those of the lines after it, whatever the
    preamble holds, well-formed rows included, and whatever else the
    header line holds. *)
Theorem lines_before_header_are_ignored preamble header rows :
  Forall one_line (preamble ++ header :: rows) ->
  Forall (fun line => is_header line = false) preamble ->
  is_header header = true ->
  parse_top_output (unlines (preamble ++ header :: rows)) = Ok (omap row_of rows) /\
  parse_top_output (unlines (header :: rows)) = Ok (omap row_of rows).
Proof.
  intros Hlines Hpre Hheader.
  assert (forall pre, Forall (fun line => is_header line = false) pre ->
                      after_header (pre ++ header :: rows) = rows) as Hafter.
  { induction 1 as [|line pre Hline _ IH]; cbn [app after_header].
    - rewrite Hheader. reflexivity.
    - rewrite Hline. exact IH. }
  rewrite !parse_top_output_rows. split.
  - rewrite split_on_unlines; [|destruct preamble; discriminate | exact Hlines].
    rewrite (Hafter preamble Hpre). reflexivity.
  - apply Forall_app in Hlines as [_ Hlines].
    rewrite split_on_unlines; [|discriminate | exact Hlines].
    exact (f_equal Ok (f_equal (omap row_of) (Hafter [] (List.Forall_nil _)))).
Qed.

Lemma lines_before_header_are_ignored_witness :
  parse_top_output
    (unlines ["Type: cpu"; "10ms 50.0% 50.0% 10ms 50.0% runtime.before";
              "flat cum"; "20ms 5.0% 5.0% 20ms 5.0% main.after"]) =
    Ok (omap row_of ["20ms 5.0% 5.0% 20ms 5.0% main.after"]) /\
  parse_top_output (unlines ["flat cum"; "20ms 5.0% 5.0% 20ms 5.0% main.after"]) =
    Ok (omap row_of ["20ms 5.0% 5.0% 20ms 5.0% main.after"]).
Proof.
  apply (lines_before_header_are_ignored
           ["Type: cpu"; "10ms 50.0% 50.0% 10ms 50.0% runtime.before"]
           "flat cum" ["20ms 5.0% 5.0% 20ms 5.0% main.after"]).
  - repeat constructor.
  - repeat constructor.
  - reflexivity.
Defined.

Lemma split_cons a s :
  PyStr.split (String a s) =
  if PyStr.is_space a then PyStr.split s
  else match s with
       | EmptyString => [String a EmptyString]
       | String b _ =>
           if PyStr.is_space b then String a EmptyString :: PyStr.split s
           else match PyStr.split s with
                | tok :: rest => String a tok :: rest
                | [] => [String a EmptyString]
                end
       end.
Proof. reflexivity. Qed.

(** What [split] gives are tokens. *)
Lemma split_tokens s : Forall token (PyStr.split s).
Proof.
  induction s as [|a s IH]; [constructor|]. rewrite split_cons.
  destruct (PyStr.is_space a) eqn:Ha; [exact IH|].
  assert (token (String a "")) as Hone.
  { split; [discriminate|]. cbn [all_chars]. rewrite Ha. reflexivity. }
  destruct s as [|b s]; [repeat constructor; apply Hone|].
  destruct (PyStr.is_space b); [constructor; [exact Hone | exact IH]|].
  destruct (PyStr.split (String b s)) as [|tok rest];
    [repeat constructor; apply Hone|].
  inversion IH as [|? ? [_ Htok] Hrest]; subst.
  constructor; [|exact Hrest]. split; [discriminate|].
  cbn [all_chars]. rewrite Ha, Htok. reflexivity.
Qed.

Lemma split_token t : token t -> PyStr.split t = [t].
Proof.
  intros [Hsome Hchars]. induction t as [|a t IH]; [congruence|].
  cbn [all_chars] in Hchars. apply andb_true_iff in Hchars as [Ha Ht].
  apply negb_true_iff in Ha. rewrite split_cons, Ha.
  destruct t as [|b t]; [reflexivity|].
  rewrite IH by (discriminate || exact Ht).
  cbn [all_chars] in Ht. apply andb_true_iff in Ht as [Hb _].
  apply negb_true_iff in Hb. rewrite Hb. reflexivity.
Qed.

Lemma split_token_app t rest :
  token t -> PyStr.split (t +:+ String " " rest) = t :: PyStr.split rest.
Proof.
  intros [Hsome Hchars]. induction t as [|a t IH]; [congruence|].
  cbn [all_chars] in Hchars. apply andb_true_iff in Hchars as [Ha Ht].
  apply negb_true_iff in Ha. rewrite string_app_cons, split_cons, Ha.
  destruct t as [|b t].
  - change ("" +:+ String " " rest) with (String " " rest).
    rewrite (split_cons " " rest). reflexivity.
  - rewrite IH by (discriminate || exact Ht).
    rewrite string_app_cons.
    cbn [all_chars] in Ht. apply andb_true_iff in Ht as [Hb _].
    apply negb_true_iff in Hb. rewrite Hb. reflexivity.
Qed.

(** Tokens joined by single spaces split into the tokens. *)
Lemma split_join tokens :
  Forall token tokens -> PyStr.split (PyStr.join " " tokens) = tokens.
Proof.
  induction 1 as [|t tokens Ht Htokens IH]; [reflexivity|].
  destruct tokens as [|t' tokens]; [apply split_token, Ht|].
  change (PyStr.join " " (t :: t' :: tokens))
    with (t +:+ String " " ("" +:+ PyStr.join " " (t' :: tokens))).
  rewrite split_token_app by exact Ht. f_equal. exact IH.
Qed.

Lemma join_tokens_nonempty t tokens :
  token t -> PyStr.join " " (t :: tokens) <> "".
Proof.
  intros [Hsome _]. destruct t as [|a t]; [congruence|].
  destruct tokens; cbn; [discriminate|]. rewrite string_app_cons. discriminate.
Qed.

Lemma after_header_In line lines :
  In line (after_header lines) -> In line lines.
Proof.
  induction lines as [|first lines IH]; [intros []|]. cbn [after_header].
  destruct (is_header first); [right; assumption | right; auto].
Qed.

(** The fields of the record of a line. *)
Lemma row_of_fields line row :
  row_of line = Some row ->
  PyStr.split line !! 0%nat = Some (FunctionStat.flat_time row) /\
  PyStr.split line !! 3%nat = Some (FunctionStat.cum_time row) /\
  FunctionStat.name row = PyStr.join " " (drop 5 (PyStr.split line)) /\
  exists t rest, drop 5 (PyStr.split line) = t :: rest.
Proof.
  unfold row_of. destruct (is_header line); [discriminate|].
  destruct (PyStr.is_empty (PyStr.strip line)); [discriminate|]. cbv zeta.
  destruct (6 <=? length (PyStr.split line))%nat eqn:Hlen; [|discriminate].
  destruct (six_tokens _ Hlen) as (t0 & t1 & t2 & t3 & t4 & t5 & rest & ->).
  rewrite parse_row_cons.
  destruct (PyFloat.of_string (PyStr.rstrip "%" t1)); [|discriminate].
  destruct (PyFloat.of_string (PyStr.rstrip "%" t4)); [|discriminate].
  intros [= <-]. cbn. eauto 10.
Qed.

(** X12. Every record comes from a line of the text: its two times are
    the first and the fourth token of the line as they stand, and its
    name is made of the tokens from the sixth on, joined by single
    spaces.  So a name is never empty, has no white space at either end
    and none but single spaces within: splitting it gives the tokens of
    the line back. *)
Theorem records_come_from_lines top_output rows :
  parse_top_output top_output = Ok rows ->
  Forall (fun row =>
            exists line,
              In line (PyStr.split_on "010" top_output) /\
              PyStr.split line !! 0%nat = Some (FunctionStat.flat_time row) /\
              PyStr.split line !! 3%nat = Some (FunctionStat.cum_time row) /\
              PyStr.split (FunctionStat.name row) = drop 5 (PyStr.split line) /\
              FunctionStat.name row =
                PyStr.join " " (PyStr.split (FunctionStat.name row)) /\
              FunctionStat.name row <> "") rows.
Proof.
  rewrite parse_top_output_rows. intros [= <-].
  apply List.Forall_forall. intros row Hrow.
  apply list_elem_of_In, list_elem_of_omap in Hrow as (line & Hline & Hof).
  apply list_elem_of_In, after_header_In in Hline.
  destruct (row_of_fields line row Hof) as (H0 & H3 & Hname & t & rest & Hdrop).
  assert (Forall token (drop 5 (PyStr.split line))) as Htokens.
  { apply Forall_drop, split_tokens. }
  exists line. split; [exact Hline|]. split; [exact H0|]. split; [exact H3|].
  rewrite Hname, (split_join _ Htokens). split; [reflexivity|].
  split; [reflexivity|].
  rewrite Hdrop in Htokens |- *. inversion Htokens; subst.
  apply join_tokens_nonempty. assumption.
Qed.

Lemma records_come_from_lines_witness :
  Forall (fun row =>
            exists line,
              In line (PyStr.split_on "010"
                         ("flat cum" +:+ nl +:+
                          " 10ms  5% 5%  20ms 10%  main.run   (inline) ")) /\
              PyStr.split line !! 0%nat = Some (FunctionStat.flat_time row) /\
              PyStr.split line !! 3%nat = Some (FunctionStat.cum_time row) /\
              PyStr.split (FunctionStat.name row) = drop 5 (PyStr.split line) /\
              FunctionStat.name row =
                PyStr.join " " (PyStr.split (FunctionStat.name row)) /\
              FunctionStat.name row <> "")
    [FunctionStat.Build "10ms" 5 "20ms" 10 "main.run (inline)"].
Proof.
  apply (records_come_from_lines
           ("flat cum" +:+ nl +:+ " 10ms  5% 5%  20ms 10%  main.run   (inline) ")).
  vm_compute. reflexivity.
Defined.

(** * The findings in the report, and the rows out of range *)

(** ** The findings as a function of the records *)

Lemma hotspot_of_closed func :
  hotspot_of func = if fires func then Some (finding_of func) else None.
Proof.
  unfold hotspot_of, finding_of. rewrite classify_closed_form.
  cbn [v_priority v_issues].
  unfold final_issues, fires, issue_if. cbv zeta.
  destruct (PyFloat.gt (FunctionStat.flat_pct func) 10 ||
            PyFloat.gt (FunctionStat.flat_pct func) 5); [reflexivity|].
  destruct (PyFloat.gt (FunctionStat.cum_pct func) 20); [reflexivity|].
  destruct (any_in gc_patterns (FunctionStat.name func)); [reflexivity|].
  destruct (any_in lock_patterns (FunctionStat.name func)); [reflexivity|].
  destruct (any_in json_patterns (FunctionStat.name func)); [reflexivity|].
  destruct (any_in sql_patterns (FunctionStat.name func)); [reflexivity|].
  destruct (any_in reflect_patterns (FunctionStat.name func)); [reflexivity|].
  destruct (any_in regex_patterns (FunctionStat.name func)); [reflexivity|].
  destruct (any_in syscall_patterns (FunctionStat.name func)); reflexivity.
Qed.

(** The findings are those of the records for which some rule fires, in
    the order of the records. *)
Lemma identify_hotspots_filter functions :
  identify_hotspots functions = map finding_of (List.filter fires functions).
Proof.
  rewrite identify_hotspots_omap.
  induction functions as [|func functions IH]; [reflexivity|].
  rewrite omap_cons_eq, hotspot_of_closed. cbn [List.filter].
  destruct (fires func); cbn [map]; rewrite IH; reflexivity.
Qed.

Lemma filter_sublist {A : Type} (p : A -> bool) (xs : list A) :
  sublist (List.filter p xs) xs.
Proof.
  induction xs as [|x xs IH]; [constructor|]. cbn [List.filter].
  destruct (p x); [apply sublist_skip | apply sublist_cons]; exact IH.
Qed.

(** ** The entries of the hotspot list *)

Lemma write_issue_lines issues start :
  write_each (fun _ issue => write ("- " +:+ issue +:+ nl)) start issues =
    Ok (issue_lines issues).
Proof.
  unfold issue_lines. revert start.
  induction issues as [|issue issues IH]; intros start; [reflexivity|].
  cbn [write_each map]. rewrite concat_empty_cons.
  apply and_then_ok; [reflexivity | apply IH].
Qed.

(** The loop body writes the entry of the finding. *)
Lemma write_hotspot_entry i hotspot :
  valid_priority (Hotspot.priority hotspot) ->
  write_hotspot i hotspot = Ok (hotspot_entry i hotspot).
Proof.
  intros Hv. unfold write_hotspot, hotspot_entry.
  assert (priority_emoji (Hotspot.priority hotspot) =
          Ok (default "" (priority_emojis !! Hotspot.priority hotspot))) as ->.
  { unfold priority_emoji. destruct Hv as [-> | [-> | ->]]; reflexivity. }
  cbn [mbind result_bind]. rewrite write_issue_lines.
  reflexivity.
Qed.

Lemma write_hotspot_entries hotspots start entries :
  Forall (fun hotspot => valid_priority (Hotspot.priority hotspot)) hotspots ->
  Forall2 (fun ih entry => write_hotspot ih.1 ih.2 = Ok entry)
    (enumerate start hotspots) entries ->
  entries = map (fun ih => hotspot_entry ih.1 ih.2) (enumerate start hotspots).
Proof.
  unfold enumerate. intros Hv. revert start entries.
  induction Hv as [|hotspot hotspots Hh _ IH]; intros start entries Hentries.
  - inversion Hentries. reflexivity.
  - cbn in Hentries |- *. inversion Hentries as [|? entry ? rest He Hrest]; subst.
    cbn [fst snd] in He. rewrite (write_hotspot_entry _ _ Hh) in He.
    injection He as <-. f_equal. apply IH, Hrest.
Qed.

(** The hotspot section of findings with priorities among the three. *)
Lemma write_hotspots_section hotspots :
  Forall (fun hotspot => valid_priority (Hotspot.priority hotspot)) hotspots ->
  write_hotspots hotspots =
    Ok ("## ðŸ”¥ Top Performance Hotspots" +:+ nl +:+ nl +:+
        match hotspots with
        | [] => "No hotspots detected." +:+ nl +:+ nl
        | _ :: _ =>
            String.concat ""
              (map (fun ih => hotspot_entry ih.1 ih.2)
                 (enumerate 1 (take 10 hotspots)))
        end).
Proof.
  intros Hv. destruct (write_hotspots_entries hotspots Hv) as (entries & He & ->).
  rewrite (write_hotspot_entries (take 10 hotspots) 1 entries); [reflexivity| |exact He].
  apply Forall_take, Hv.
Qed.

(** ** What can be read in the report *)

Lemma prefix_app needle rest : String.prefix needle (needle +:+ rest) = true.
Proof.
  induction needle as [|a needle IH]; [destruct rest; reflexivity|].
  rewrite string_app_cons. cbn [String.prefix].
  destruct (ascii_dec a a); [exact IH | congruence].
Qed.

Lemma contains_here needle rest : PyStr.contains needle (needle +:+ rest) = true.
Proof.
  destruct needle as [|a needle].
  - destruct rest; reflexivity.
  - rewrite string_app_cons. cbn [PyStr.contains].
    rewrite <- string_app_cons, prefix_app. reflexivity.
Qed.

Lemma contains_app_r needle before text :
  PyStr.contains needle text = true ->
  PyStr.contains needle (before +:+ text) = true.
Proof.
  intros H. induction before as [|a before IH]; [exact H|].
  rewrite string_app_cons. cbn [PyStr.contains]. rewrite IH. apply orb_true_r.
Qed.

Lemma prefix_app_l needle text rest :
  String.prefix needle text = true -> String.prefix needle (text +:+ rest) = true.
Proof.
  revert text. induction needle as [|a needle IH]; intros text;
    [destruct (text +:+ rest); reflexivity|].
  destruct text as [|b text]; [discriminate|].
  rewrite string_app_cons. cbn [String.prefix].
  destruct (ascii_dec a b); [apply IH | discriminate].
Qed.

Lemma contains_app_l needle text rest :
  PyStr.contains needle text = true ->
  PyStr.contains needle (text +:+ rest) = true.
Proof.
  induction text as [|a text IH].
  - destruct needle; [|discriminate]. intros _. destruct rest; reflexivity.
  - rewrite string_app_cons. cbn [PyStr.contains].
    intros H. apply orb_true_iff in H as [H | H].
    + rewrite <- string_app_cons, (prefix_app_l _ _ _ H). reflexivity.
    + rewrite (IH H). apply orb_true_r.
Qed.

Lemma contains_concat needle text texts :
  In text texts -> PyStr.contains needle text = true ->
  PyStr.contains needle (String.concat "" texts) = true.
Proof.
  intros Hin Htext. induction texts as [|first texts IH]; [destruct Hin|].
  rewrite concat_empty_cons. destruct Hin as [-> | Hin].
  - apply contains_app_l, Htext.
  - apply contains_app_r, IH, Hin.
Qed.

(** The entry of a finding names its function. *)
Lemma hotspot_entry_function i hotspot :
  PyStr.contains ("**Function:** `" +:+ Hotspot.function hotspot +:+ "`")
    (hotspot_entry i hotspot) = true.
Proof.
  unfold hotspot_entry. apply contains_app_r, contains_app_l.
  replace ("**Function:** `" +:+ Hotspot.function hotspot +:+ "`" +:+ nl +:+ nl)
    with (("**Function:** `" +:+ Hotspot.function hotspot +:+ "`") +:+ nl +:+ nl)
    by (rewrite !string_app_assoc; reflexivity).
  apply contains_here.
Qed.

Lemma enumerate_In {A : Type} (x : A) xs start :
  In x xs -> exists i, In (i, x) (enumerate start xs).
Proof.
  unfold enumerate. revert start.
  induction xs as [|y xs IH]; intros start; [intros []|].
  intros [-> | Hin].
  - exists start. left. reflexivity.
  - destruct (IH (S start) Hin) as [i Hi]. exists i. right. exact Hi.
Qed.

(** C8: the findings are those of the records for which some rule
    fires, one for each and in the order of the records; and the hotspot
    section of the report is its heading followed by the entries of the
    first ten findings (of all of them when there are fewer), in that
    order and numbered from 1, each with the function, the two
    percentages and every issue of its finding, or by the statement that
    there is none.  So the function of each of the first ten findings
    can be read in the list. *)
Theorem report_lists_first_ten_in_order functions self now :
  hotspots self = identify_hotspots functions ->
  generate_recommendations (hotspots self) = Ok (recommendations self) ->
  hotspots self = map finding_of (List.filter fires functions) /\
  map Hotspot.function (hotspots self) =
    map FunctionStat.name (List.filter fires functions) /\
  sublist (List.filter fires functions) functions /\
  exists before listed after,
    (write_title self now >> write_summary (hotspots self)) = Ok before /\
    (write_recommendations (recommendations self) >> write_next_steps self >>
     write_footer) = Ok after /\
    listed =
      match hotspots self with
      | [] => "No hotspots detected." +:+ nl +:+ nl
      | _ :: _ =>
          String.concat ""
            (map (fun ih => hotspot_entry ih.1 ih.2)
               (enumerate 1 (take 10 (hotspots self))))
      end /\
    generate_report self now =
      Ok (before +:+
          "## ðŸ”¥ Top Performance Hotspots" +:+ nl +:+ nl +:+ listed +:+
          after) /\
    Forall (fun hotspot =>
              PyStr.contains
                ("**Function:** `" +:+ Hotspot.function hotspot +:+ "`") listed =
              true)
      (take 10 (hotspots self)).
Proof.
  intros Hfound Hrecs.
  split; [rewrite Hfound; apply identify_hotspots_filter|].
  split.
  { rewrite Hfound, identify_hotspots_filter, map_map. reflexivity. }
  split; [apply filter_sublist|].
  assert (Forall (fun hotspot => valid_priority (Hotspot.priority hotspot))
            (hotspots self)) as Hvalid.
  { rewrite Hfound. eapply Forall_impl; [apply identify_hotspots_valid|].
    intros hotspot [Hp _]. exact Hp. }
  pose proof (write_hotspots_section (hotspots self) Hvalid) as Hsection.
  destruct (generate_recommendations_valid (hotspots self)) as (recs & Hrecs' & Hv).
  assert (recs = recommendations self) as -> by congruence.
  destruct (write_recommendations_ok _ Hv) as [advised Hadvised].
  destruct (write_title_ok self now) as [title Htitle].
  destruct (write_summary_ok (hotspots self)) as [summary Hsummary].
  destruct (write_next_steps_ok self) as [steps Hsteps].
  destruct write_footer_ok as [footer Hfooter].
  exists (title +:+ summary). eexists. exists (advised +:+ steps +:+ footer).
  split; [apply and_then_ok; assumption|].
  split; [repeat (apply and_then_ok; [assumption|]); assumption|].
  split; [reflexivity|]. split.
  - rewrite (generate_report_parts self now _ _ _ _ _ _
               Htitle Hsummary Hsection Hadvised Hsteps Hfooter).
    rewrite !string_app_assoc. reflexivity.
  - apply List.Forall_forall. intros hotspot Hin.
    destruct (hotspots self) as [|first rest] eqn:Hhs; [destruct Hin|].
    destruct (enumerate_In hotspot _ 1 Hin) as [i Hi].
    apply (contains_concat _ (hotspot_entry i hotspot)).
    + apply in_map_iff. exists (i, hotspot). split; [reflexivity | exact Hi].
    + apply hotspot_entry_function.
Qed.

(** The sample table: eleven findings, ten entries. *)
Lemma report_lists_first_ten_in_order_witness :
  hotspots sample_analyzer = map finding_of (List.filter fires sample_rows) /\
  map Hotspot.function (hotspots sample_analyzer) =
    map FunctionStat.name (List.filter fires sample_rows) /\
  sublist (List.filter fires sample_rows) sample_rows /\
  exists before listed after,
    (write_title sample_analyzer sample_now >>
     write_summary (hotspots sample_analyzer)) = Ok before /\
    (write_recommendations (recommendations sample_analyzer) >>
     write_next_steps sample_analyzer >> write_footer) = Ok after /\
    listed =
      match hotspots sample_analyzer with
      | [] => "No hotspots detected." +:+ nl +:+ nl
      | _ :: _ =>
          String.concat ""
            (map (fun ih => hotspot_entry ih.1 ih.2)
               (enumerate 1 (take 10 (hotspots sample_analyzer))))
      end /\
    generate_report sample_analyzer sample_now =
      Ok (before +:+
          "## ðŸ”¥ Top Performance Hotspots" +:+ nl +:+ nl +:+ listed +:+
          after) /\
    Forall (fun hotspot =>
              PyStr.contains
                ("**Function:** `" +:+ Hotspot.function hotspot +:+ "`") listed =
              true)
      (take 10 (hotspots sample_analyzer)).
Proof.
  apply (report_lists_first_ten_in_order sample_rows sample_analyzer sample_now);
    vm_compute; reflexivity.
Defined.

(** The sample: thirteen records, eleven findings in the order of the
    table, and a report that numbers ten entries. *)
Example sample_report_has_ten_entries :
  length sample_rows = 13%nat /\
  map Hotspot.function (hotspots sample_analyzer) =
    ["runtime.gcBgMarkWorker"; "reflect.Value.Call"; "sync.(*Mutex).Lock";
     "encoding/json.Marshal"; "database/sql.(*DB).Query";
     "regexp.(*Regexp).doExecute"; "syscall.Syscall"; "net/http.(*conn).serve";
     "runtime.mallocgc"; "runtime.sweepone"; "runtime.futex.lock"] /\
  exists report,
    generate_report sample_analyzer sample_now = Ok report /\
    PyStr.contains "### 10. " report = true /\
    PyStr.contains "### 11. " report = false /\
    PyStr.contains "runtime.sweepone" report = true /\
    PyStr.contains "runtime.futex.lock" report = false.
Proof.
  split; [reflexivity|]. split; [reflexivity|].
  eexists. split; [vm_compute; reflexivity|]. repeat split; vm_compute; reflexivity.
Qed.

(** ** Rows out of range *)

(** A number above 100 is above the thresholds of the classifier. *)
Lemma gt_100_thresholds x :
  PyFloat.gt x 100 = true ->
  PyFloat.gt x 5 = true /\ PyFloat.gt x 10 = true /\ PyFloat.gt x 20 = true.
Proof.
  unfold PyFloat.gt. rewrite !FloatAxioms.ltb_spec. unfold SFltb.
  change (Prim2SF 100) with (S754_finite false 7036874417766400 (-46)).
  change (Prim2SF 5) with (S754_finite false 5629499534213120 (-50)).
  change (Prim2SF 10) with (S754_finite false 5629499534213120 (-49)).
  change (Prim2SF 20) with (S754_finite false 5629499534213120 (-48)).
  destruct (Prim2SF x) as [[]|[]| |[] m e]; cbn [SFcompare]; try discriminate;
    try (intros _; repeat split; reflexivity).
  destruct (Z.compare_spec (-46) e) as [<-|Hlt|Hgt]; [| |discriminate].
  - intros _. repeat split; reflexivity.
  - intros _.
    assert (((-50) ?= e) = Lt) as -> by (apply Z.compare_lt_iff; lia).
    assert (((-49) ?= e) = Lt) as -> by (apply Z.compare_lt_iff; lia).
    assert (((-48) ?= e) = Lt) as -> by (apply Z.compare_lt_iff; lia).
    repeat split; reflexivity.
Qed.

Lemma gt_100_fires func :
  PyFloat.gt (FunctionStat.flat_pct func) 100 = true \/
  PyFloat.gt (FunctionStat.cum_pct func) 100 = true ->
  fires func = true.
Proof.
  unfold fires. cbv zeta. intros [H | H];
    destruct (gt_100_thresholds _ H) as (H5 & H10 & H20).
  - rewrite H10. reflexivity.
  - rewrite H20, !orb_true_r. reflexivity.
Qed.

Lemma keyword_fires key func :
  any_in (key_patterns key) (FunctionStat.name func) = true -> fires func = true.
Proof.
  intros Hkey. pose proof (keyword_gives_issue key func Hkey) as Hissue.
  pose proof (hotspot_of_closed func) as Hof. unfold hotspot_of in Hof.
  rewrite classify_closed_form in Hof. cbn [v_issues] in Hof.
  destruct (fires func); [reflexivity|].
  destruct (final_issues func); [congruence | discriminate].
Qed.

(** The group of a key over a table: the groups of the rows before,
    the finding of the row when its name has a keyword of the key, and
    the groups of the rows after. *)
Lemma contributing_row key before row after :
  contributing key (identify_hotspots (before ++ row :: after)) =
    contributing key (identify_hotspots before) ++
    (if any_in (key_patterns key) (FunctionStat.name row)
     then [finding_of row] else []) ++
    contributing key (identify_hotspots after).
Proof.
  rewrite !contributing_classified, !identify_hotspots_omap, omap_app, omap_cons_eq.
  rewrite List.filter_app. f_equal. rewrite hotspot_of_closed.
  destruct (any_in (key_patterns key) (FunctionStat.name row)) eqn:Hkey.
  - rewrite (keyword_fires key row Hkey). cbn [List.filter finding_of Hotspot.function].
    rewrite Hkey. reflexivity.
  - destruct (fires row); [|reflexivity].
    cbn [List.filter finding_of Hotspot.function]. rewrite Hkey. reflexivity.
Qed.

(** C9: the parser checks no range, and neither does what follows it.
    Once the header has been seen, a line that is not a header line, has
    at least 6 tokens and whose tokens 1 and 4 parse yields a record
    that carries the two parsed numbers as they are, whatever they are.
    The classifier decides on the record by its thresholds and keywords
    alone: the record has a finding exactly when some rule fires, as
    every record with a percentage above 100 and every record with a
    keyword in its name does, and the finding carries the two numbers.
    The finding stands among the findings of the table at the place of
    its row, and in the group of every key of which the name has a
    keyword, once, between the findings of the rows before and after;
    the recommendations are those of these groups, with the sums of
    their [flat_pct]. *)
Theorem percentages_taken_verbatim pre line post tok1 tok4 flat cum :
  Forall one_line (pre ++ line :: post) ->
  Exists (fun l => is_header l = true) pre ->
  is_header line = false ->
  (6 <= length (PyStr.split line))%nat ->
  PyStr.split line !! 1%nat = Some tok1 ->
  PyStr.split line !! 4%nat = Some tok4 ->
  PyFloat.of_string (PyStr.rstrip "%" tok1) = Some flat ->
  PyFloat.of_string (PyStr.rstrip "%" tok4) = Some cum ->
  exists before row after,
    parse_top_output (unlines (pre ++ line :: post)) = Ok (before ++ row :: after) /\
    parse_top_output (unlines pre) = Ok before /\
    FunctionStat.flat_pct row = flat /\
    FunctionStat.cum_pct row = cum /\
    hotspot_of row = (if fires row then Some (finding_of row) else None) /\
    Hotspot.flat_pct (finding_of row) = flat /\
    Hotspot.cum_pct (finding_of row) = cum /\
    (PyFloat.gt flat 100 = true \/ PyFloat.gt cum 100 = true -> fires row = true) /\
    identify_hotspots (before ++ row :: after) =
      identify_hotspots before ++ option_list (hotspot_of row) ++
      identify_hotspots after /\
    exists (groups : gmap string (list Hotspot.t)) recs,
      group_by_issue (identify_hotspots (before ++ row :: after)) = Ok groups /\
      generate_recommendations (identify_hotspots (before ++ row :: after)) =
        Ok recs /\
      recs = flat_map (recommendation_of (identify_hotspots (before ++ row :: after)))
               advices /\
      forall key,
        In key group_keys ->
        groups !! key =
          Some (contributing key (identify_hotspots before) ++
                (if any_in (key_patterns key) (FunctionStat.name row)
                 then [finding_of row] else []) ++
                contributing key (identify_hotspots after)) /\
        contributing key (identify_hotspots (before ++ row :: after)) =
          contributing key (identify_hotspots before) ++
          (if any_in (key_patterns key) (FunctionStat.name row)
           then [finding_of row] else []) ++
          contributing key (identify_hotspots after) /\
        (any_in (key_patterns key) (FunctionStat.name row) = true ->
         fires row = true).
Proof.
  intros Hlines Hheader Hline Hlen H1 H4 Hflat Hcum.
  destruct (row_of_parsed line tok1 tok4 flat cum Hline Hlen H1 H4 Hflat Hcum)
    as (row & Hrow & Hf & Hc).
  exists (omap row_of (after_header pre)), row, (omap row_of post).
  split.
  { rewrite parse_unlines_app by assumption.
    rewrite omap_cons_eq, Hrow. reflexivity. }
  split.
  { rewrite <- (app_nil_r pre) at 1. rewrite parse_unlines_app.
    + rewrite app_nil_r. reflexivity.
    + rewrite app_nil_r. apply Forall_app in Hlines as [Hpre _]. exact Hpre.
    + exact Hheader. }
  split; [exact Hf|]. split; [exact Hc|].
  split; [apply hotspot_of_closed|].
  split; [exact Hf|]. split; [exact Hc|].
  split; [rewrite <- Hf, <- Hc; apply gt_100_fires|].
  split.
  { rewrite !identify_hotspots_omap, omap_app, omap_cons_eq.
    destruct (hotspot_of row); reflexivity. }
  destruct (group_by_issue_contributing
              (identify_hotspots
                 (omap row_of (after_header pre) ++ row :: omap row_of post)))
    as (groups & Hgroups & Hlookup).
  exists groups. eexists.
  split; [exact Hgroups|].
  split; [apply generate_recommendations_closed|]. split; [reflexivity|].
  intros key Hkey. split; [|split].
  - rewrite (Hlookup key Hkey), contributing_row. reflexivity.
  - apply contributing_row.
  - apply keyword_fires.
Qed.

(** A row with a negative [flat_pct] and a [cum_pct] above 100. *)
Lemma percentages_taken_verbatim_witness :
  exists before row after,
    parse_top_output
      (unlines
         (["      flat  flat%   sum%        cum   cum%"] ++
          "10ms -5.0% 0% 10ms 250% runtime.gcDrain" :: [])) =
      Ok (before ++ row :: after) /\
    parse_top_output (unlines ["      flat  flat%   sum%        cum   cum%"]) =
      Ok before /\
    FunctionStat.flat_pct row = (-5)%float /\
    FunctionStat.cum_pct row = 250%float /\
    hotspot_of row = (if fires row then Some (finding_of row) else None) /\
    Hotspot.flat_pct (finding_of row) = (-5)%float /\
    Hotspot.cum_pct (finding_of row) = 250%float /\
    (PyFloat.gt (-5) 100 = true \/ PyFloat.gt 250 100 = true -> fires row = true) /\
    identify_hotspots (before ++ row :: after) =
      identify_hotspots before ++ option_list (hotspot_of row) ++
      identify_hotspots after /\
    exists (groups : gmap string (list Hotspot.t)) recs,
      group_by_issue (identify_hotspots (before ++ row :: after)) = Ok groups /\
      generate_recommendations (identify_hotspots (before ++ row :: after)) =
        Ok recs /\
      recs = flat_map (recommendation_of (identify_hotspots (before ++ row :: after)))
               advices /\
      forall key,
        In key group_keys ->
        groups !! key =
          Some (contributing key (identify_hotspots before) ++
                (if any_in (key_patterns key) (FunctionStat.name row)
                 then [finding_of row] else []) ++
                contributing key (identify_hotspots after)) /\
        contributing key (identify_hotspots (before ++ row :: after)) =
          contributing key (identify_hotspots before) ++
          (if any_in (key_patterns key) (FunctionStat.name row)
           then [finding_of row] else []) ++
          contributing key (identify_hotspots after) /\
        (any_in (key_patterns key) (FunctionStat.name row) = true ->
         fires row = true).
Proof.
  apply (percentages_taken_verbatim
           ["      flat  flat%   sum%        cum   cum%"]
           "10ms -5.0% 0% 10ms 250% runtime.gcDrain" [] "-5.0%" "250%").
  - repeat constructor.
  - apply Exists_cons_hd. reflexivity.
  - reflexivity.
  - vm_compute. repeat constructor.
  - reflexivity.
  - reflexivity.
  - vm_compute. reflexivity.
  - vm_compute. reflexivity.
Defined.

(** The same table through [analyze]: the negative [flat_pct] and the
    [cum_pct] above 100 reach the finding and the sum of the
    recommendation. *)
Example out_of_range_row_flows :
  exists self report summary,
    analyze (Build_Analyzer "cpu.pb.gz" "cpu.pb" [] []) (Datetime 2024 1 2 3 4 5)
      (unlines ["      flat  flat%   sum%        cum   cum%";
                "10ms -5.0% 0% 10ms 250% runtime.gcDrain"]) =
      Ok (Some (self, report, summary)) /\
    hotspots self =
      [Hotspot.Build "runtime.gcDrain" (-5) 250 "MEDIUM"
         ["Call tree consumes 250.0% total CPU"; "Garbage collection overhead"]] /\
    recommendations self =
      [Recommendation.Build "Memory Management" "MEDIUM" "GC overhead: -5.0% CPU"
         (a_suggestions advice_gc)].
Proof. vm_compute. do 3 eexists. split; [reflexivity|]. split; reflexivity. Qed.
